(** * strandsagent: the MCP dispatchers and the business-query classifier

    A shallow embedding of

    - [lambda/query/query_agent_handler.py]  (classification, aggregation,
      narration with graceful degradation, the legacy Lambda entry point),
    - [lambda/query/mcp_handler.py]          (business-data MCP dispatcher),
    - [lambda/weather/mcp_handler.py]        (weather MCP dispatcher),

    followed by the properties the specification states about them.

    Python values that travel through the dispatchers are JSON values.
    Effects (database, language model, weather agent, clock, environment)
    are threaded explicitly: a computation is a function from the state of
    the outside world to either a raised exception or a value, together with
    the new state of the world.  Logging and [print] calls are left out. *)

From Stdlib Require Import String Ascii List ZArith Bool Lia DecimalString.
Import ListNotations.
Local Open Scope string_scope.

Set Implicit Arguments.
Set Warnings "-register-all".

(* ================================================================== *)
(** * Python values, exceptions and string operations                  *)
(* ================================================================== *)

Module Py.

(** JSON values as [json.loads] produces them.  A Python [dict] keeps its
    insertion order, so an object is an association list; lookup takes the
    first binding of a key.  A float is kept as the text of its [repr]. *)
Inductive json : Type :=
| JNull
| JBool (b : bool)
| JInt (n : Z)
| JFloat (lit : string)
| JStr (s : string)
| JList (l : list json)
| JDict (d : list (string * json)).

(** The exceptions the modelled code raises itself or meets in the
    interpreter; [Exception] also stands for whatever an external
    collaborator raises. *)
Inductive exn : Type :=
| Exception (msg : string)
| ValueError (msg : string)
| AttributeError (ty attr : string)
| KeyError (key : string)
| TypeError (msg : string).

(** [type(v).__name__] *)
Definition type_name (v : json) : string :=
  match v with
  | JNull => "NoneType"
  | JBool _ => "bool"
  | JInt _ => "int"
  | JFloat _ => "float"
  | JStr _ => "str"
  | JList _ => "list"
  | JDict _ => "dict"
  end.

(** [str(e)] for an exception [e] (wording of CPython 3.12). *)
Definition str_exn (e : exn) : string :=
  match e with
  | Exception msg => msg
  | ValueError msg => msg
  | AttributeError ty attr =>
      "'" ++ ty ++ "' object has no attribute '" ++ attr ++ "'"
  | KeyError key => "'" ++ key ++ "'"
  | TypeError msg => msg
  end.

(** ** Strings *)

(** [c.lower()] on one character: only the 26 capital letters move. *)
Definition lower_ascii (c : ascii) : ascii :=
  let n := nat_of_ascii c in
  if (65 <=? n)%nat && (n <=? 90)%nat then ascii_of_nat (n + 32) else c.

(** [s.lower()].  Strings are sequences of 8-bit characters; on text outside
    ASCII (read as UTF-8) Python's [lower] may also change other letters,
    which this model leaves alone. *)
Fixpoint lower (s : string) : string :=
  match s with
  | EmptyString => EmptyString
  | String c s' => String (lower_ascii c) (lower s')
  end.

(** [needle in haystack] for two strings: substring occurrence. *)
Fixpoint contains (needle haystack : string) : bool :=
  String.prefix needle haystack ||
  match haystack with
  | EmptyString => false
  | String _ rest => contains needle rest
  end.

(** [any(word in text for word in words)] *)
Definition any_in (words : list string) (text : string) : bool :=
  existsb (fun word => contains word text) words.

Definition newline : string := String (ascii_of_nat 10) EmptyString.

(** ** Dictionaries *)

Fixpoint lookup (k : string) (d : list (string * json)) : option json :=
  match d with
  | [] => None
  | (k', v) :: rest => if String.eqb k k' then Some v else lookup k rest
  end.

(** [d[k] = v]: an existing key keeps its place, a new one goes last. *)
Fixpoint store (k : string) (v : json) (d : list (string * json))
  : list (string * json) :=
  match d with
  | [] => [(k, v)]
  | (k', v') :: rest =>
      if String.eqb k k' then (k, v) :: rest else (k', v') :: store k v rest
  end.

(** [x == "literal"] for a JSON value [x]. *)
Definition eq_str (x : json) (lit : string) : bool :=
  match x with
  | JStr s => String.eqb s lit
  | _ => false
  end.

Definition string_of_Z (n : Z) : string :=
  NilZero.string_of_int (Z.to_int n).

(** ** Computations *)

Section Computations.
Variable World : Type.

(** A computation over the outside world. *)
Definition M (A : Type) : Type := World -> (exn + A) * World.

Definition ret {A} (a : A) : M A := fun w => (inr a, w).
Definition raise {A} (e : exn) : M A := fun w => (inl e, w).

Definition bind {A B} (m : M A) (k : A -> M B) : M B :=
  fun w =>
    match m w with
    | (inl e, w') => (inl e, w')
    | (inr a, w') => k a w'
    end.

(** [try: body  except Exception as e: handler(e)]; what the body did to
    the world before it raised stays done. *)
Definition try_except {A} (body : M A) (handler : exn -> M A) : M A :=
  fun w =>
    match body w with
    | (inl e, w') => handler e w'
    | (inr a, w') => (inr a, w')
    end.

(** Lift a pure fallible value. *)
Definition lift {A} (r : exn + A) : M A := fun w => (r, w).
End Computations.

Arguments ret {World A} a.
Arguments raise {World A} e.
Arguments bind {World A B} m k.
Arguments try_except {World A} body handler.
Arguments lift {World A} r.

(** [v.get(k, dflt)]: only a dict has [get]. *)
Definition get (v : json) (k : string) (dflt : json) : exn + json :=
  match v with
  | JDict d =>
      inr (match lookup k d with Some x => x | None => dflt end)
  | _ => inl (AttributeError (type_name v) "get")
  end.

(** [v[k]] with a string key [k] (wording of CPython 3.12). *)
Definition subscript (v : json) (k : string) : exn + json :=
  match v with
  | JDict d =>
      match lookup k d with
      | Some x => inr x
      | None => inl (KeyError k)
      end
  | JList _ =>
      inl (TypeError "list indices must be integers or slices, not str")
  | JStr _ => inl (TypeError "string indices must be integers, not 'str'")
  | _ => inl (TypeError ("'" ++ type_name v ++ "' object is not subscriptable"))
  end.

End Py.

Export Py.

Declare Scope py_scope.
Delimit Scope py_scope with py.
Notation "x <- m ;; k" := (bind m (fun x => k))
  (at level 61, m at next level, right associativity) : py_scope.

(** Library functions of the Python runtime whose results are only passed
    along: [repr] of a list or dict, the JSON printer (compact, and with
    [indent=2, default=str]) and the JSON parser. *)
Class Runtime : Type := {
  repr : json -> string;
  json_dumps : json -> string;
  json_dumps_indent : json -> string;
  json_loads : string -> exn + json
}.

(** [str(v)], as an f-string renders [v]. *)
Definition py_str `{Runtime} (v : json) : string :=
  match v with
  | JNull => "None"
  | JBool true => "True"
  | JBool false => "False"
  | JInt n => string_of_Z n
  | JFloat lit => lit
  | JStr s => s
  | JList _ | JDict _ => repr v
  end.

(** [k in v] for a string [k] (wording of CPython 3.12). *)
Definition py_in (k : string) (v : json) : exn + bool :=
  match v with
  | JDict d => inr (match lookup k d with Some _ => true | None => false end)
  | JList l => inr (existsb (fun x => eq_str x k) l)
  | JStr s => inr (contains k s)
  | _ => inl (TypeError ("argument of type '" ++ type_name v
                         ++ "' is not iterable"))
  end.

(** The payload a tool call answers with: [{"type": "text", "text": t}]. *)
Definition text_block (t : string) : json :=
  JDict [("type", JStr "text"); ("text", JStr t)].

(** The two shapes of a JSON-RPC response both dispatchers build. *)
Definition rpc_result (result request_id : json) : json :=
  JDict [("jsonrpc", JStr "2.0"); ("result", result); ("id", request_id)].

Definition rpc_error (message : string) (request_id : json) : json :=
  JDict [("jsonrpc", JStr "2.0");
         ("error", JDict [("code", JInt (-32603)); ("message", JStr message)]);
         ("id", request_id)].

(** The first lines of both Lambda entry points: a string under ["body"] is
    parsed, otherwise the event itself is the request. *)
Definition parse_body `{Runtime} (event : json) : exn + json :=
  match get event "body" JNull with
  | inl e => inl e
  | inr (JStr text) => json_loads text
  | inr _ => inr event
  end.

(* ================================================================== *)
(** * lambda/query: the business-data tools                            *)
(* ================================================================== *)

Module Query.

Local Open Scope py_scope.

(** ** query_agent_handler.py *)

(** The dict [analyze_business_request] builds and returns. *)
Record query_results : Type := {
  request : json;
  queries_executed : list string;
  data : list (string * json)
}.

Definition results_json (r : query_results) : json :=
  JDict [("request", request r);
         ("queries_executed", JList (map JStr (queries_executed r)));
         ("data", JDict (data r))].

(** The collaborators of the business-data Lambda.  The three
    [execute_*_query] functions open a database connection, run one SQL
    query and summarise the rows; [analyst_insights] is the rest of the
    [try] body of [generate_business_insights] after the key lookup (model
    and agent construction, the data summary, the agent call and [str] of
    its answer).  Python's [None] argument is [JNull]. *)
Class Collaborators : Type := {
  World : Type;
  execute_revenue_query : json -> M World json;
  execute_product_query : json -> json -> M World json;
  execute_customer_query : json -> json -> M World json;
  environ : World -> string -> option string;
  analyst_insights : string -> query_results -> json -> M World string;
  utcnow_isoformat : World -> string
}.

Section QueryAgent.
Context `{RT : Runtime} `{Ext : Collaborators}.

Definition get_openai_api_key : M World string :=
  fun w =>
    match environ w "OPENAI_KEY" with
    | Some (String c k) => (inr (String c k), w)
    | _ =>
        (inl (Exception "OpenAI API key not found. Set OPENAI_API_KEY or OPENAI_KEY environment variable."), w)
    end.

Definition revenue_keywords : list string :=
  ["revenue"; "sales"; "performance"; "trends"; "summary"; "business"].
Definition product_keywords : list string :=
  ["product"; "bestseller"; "category"; "inventory"; "items"].
Definition customer_keywords : list string :=
  ["customer"; "order"; "high value"; "vip"; "spending"].

(** [results['data'][key] = value; results['queries_executed'].append(name)] *)
Definition record_query (key : string) (value : json) (name : string)
           (results : query_results) : query_results :=
  {| request := request results;
     queries_executed := (queries_executed results ++ [name])%list;
     data := store key value (data results) |}.

(** The amount filter of the customer branch. *)
Definition min_amount_filter (user_prompt prompt_lower : string) : json :=
  if contains "$" user_prompt || contains "over" prompt_lower then
    if contains "200" user_prompt then JInt 200
    else if contains "500" user_prompt then JInt 500
    else JNull
  else JNull.

Definition analyze_business_request (user_prompt : json)
  : M World query_results :=
  match user_prompt with
  | JStr prompt =>
      let prompt_lower := lower prompt in
      let results :=
        {| request := user_prompt; queries_executed := []; data := [] |} in
      results <-
        (if any_in revenue_keywords prompt_lower then
           rows <- execute_revenue_query JNull ;;
           ret (record_query "revenue" rows "revenue_summary" results)
         else ret results) ;;
      results <-
        (if any_in product_keywords prompt_lower then
           rows <- execute_product_query JNull JNull ;;
           ret (record_query "products" rows "product_sales" results)
         else ret results) ;;
      results <-
        (if any_in customer_keywords prompt_lower then
           let min_amount := min_amount_filter prompt prompt_lower in
           rows <- execute_customer_query JNull min_amount ;;
           ret (record_query "customers" rows "customer_orders" results)
         else ret results) ;;
      match queries_executed results with
      | [] =>
          revenue <- execute_revenue_query JNull ;;
          products <- execute_product_query JNull JNull ;;
          ret {| request := request results;
                 queries_executed := ["revenue_summary"; "product_sales"];
                 data := store "products" products
                           (store "revenue" revenue (data results)) |}
      | _ :: _ => ret results
      end
  | _ => raise (AttributeError (type_name user_prompt) "lower")
  end.

Definition degraded_insights (e : exn) (results : query_results) : string :=
  "Data retrieved successfully, but analysis failed: " ++ str_exn e
  ++ newline ++ newline ++ "Raw data: "
  ++ json_dumps_indent (results_json results).

(** The [try] body of [generate_business_insights]. *)
Definition insights_attempt (results : query_results) (user_prompt : json)
  : M World string :=
  openai_api_key <- get_openai_api_key ;;
  analyst_insights openai_api_key results user_prompt.

Definition generate_business_insights (results : query_results)
           (user_prompt : json) : M World string :=
  try_except (insights_attempt results user_prompt)
             (fun e => ret (degraded_insights e results)).

Definition default_prompt : string :=
  "Show me a business performance summary".

Definition cors_headers : json :=
  JDict [("Content-Type", JStr "application/json");
         ("Access-Control-Allow-Origin", JStr "*")].

(** The Lambda entry point that predates the MCP dispatcher. *)
Definition agentic_handler (event : json) : M World json :=
  try_except
    (user_prompt <- lift (get event "prompt" (JStr default_prompt)) ;;
     results <- analyze_business_request user_prompt ;;
     insights <- generate_business_insights results user_prompt ;;
     fun w =>
       (inr (JDict
          [("statusCode", JInt 200);
           ("headers", cors_headers);
           ("body", JStr (json_dumps (JDict
              [("response", JStr insights);
               ("queries_executed",
                JList (map JStr (queries_executed results)));
               ("timestamp", JStr (utcnow_isoformat w));
               ("data_points",
                JInt (Z.of_nat (length (data results))))])))]), w))
    (fun e w =>
       (inr (JDict
          [("statusCode", JInt 500);
           ("headers", cors_headers);
           ("body", JStr (json_dumps (JDict
              [("error", JStr (str_exn e));
               ("timestamp", JStr (utcnow_isoformat w))])))]), w)).

End QueryAgent.

(** ** mcp_handler.py *)

Definition date_property : json :=
  JDict [("type", JStr "string");
         ("description", JStr "Start date in YYYY-MM-DD format");
         ("format", JStr "date")].

(** [MCPServer._define_tools] *)
Definition tools : json :=
  JList
    [JDict
       [("name", JStr "query_business_data");
        ("description", JStr "Query business data and get AI-powered insights");
        ("inputSchema",
         JDict [("type", JStr "object");
                ("properties",
                 JDict [("query",
                         JDict [("type", JStr "string");
                                ("description",
                                 JStr "Natural language query about business data")])]);
                ("required", JList [JStr "query"])])];
     JDict
       [("name", JStr "get_revenue_summary");
        ("description", JStr "Get revenue summary for a specific time period");
        ("inputSchema",
         JDict [("type", JStr "object");
                ("properties", JDict [("start_date", date_property)])])];
     JDict
       [("name", JStr "get_product_performance");
        ("description", JStr "Get product sales performance data");
        ("inputSchema",
         JDict [("type", JStr "object");
                ("properties",
                 JDict [("start_date", date_property);
                        ("category",
                         JDict [("type", JStr "string");
                                ("description",
                                 JStr "Product category to filter by")])])])];
     JDict
       [("name", JStr "get_customer_orders");
        ("description", JStr "Get customer order data");
        ("inputSchema",
         JDict [("type", JStr "object");
                ("properties",
                 JDict [("start_date", date_property);
                        ("min_amount",
                         JDict [("type", JStr "number");
                                ("description",
                                 JStr "Minimum order amount to filter by")])])])]].

Definition handle_initialize (params : json) : json :=
  JDict [("protocolVersion", JStr "2024-11-05");
         ("capabilities", JDict [("tools", JDict [])]);
         ("serverInfo",
          JDict [("name", JStr "database-agent");
                 ("version", JStr "1.0.0")])].

Definition handle_tools_list : json := JDict [("tools", tools)].

(** A tool result carrying one text block. *)
Definition content_result (text : string) : json :=
  JDict [("content", JList [text_block text])].

(** What the [except] clause of [handle_tools_call] returns. *)
Definition tool_error_result (shown_name failure : string) : json :=
  JDict [("content",
          JList [text_block ("Error executing " ++ shown_name ++ ": " ++ failure)]);
         ("isError", JBool true)].

Section MCPServer.
Context `{RT : Runtime} `{Ext : Collaborators}.

Definition handle_tools_call (params : json) : M World json :=
  tool_name <- lift (get params "name" JNull) ;;
  arguments <- lift (get params "arguments" (JDict [])) ;;
  try_except
    (if eq_str tool_name "query_business_data" then
       query <- lift (get arguments "query" (JStr default_prompt)) ;;
       results <- analyze_business_request query ;;
       insights <- generate_business_insights results query ;;
       ret (content_result insights)
     else if eq_str tool_name "get_revenue_summary" then
       start_date <- lift (get arguments "start_date" JNull) ;;
       rows <- execute_revenue_query start_date ;;
       ret (content_result (json_dumps_indent rows))
     else if eq_str tool_name "get_product_performance" then
       start_date <- lift (get arguments "start_date" JNull) ;;
       category <- lift (get arguments "category" JNull) ;;
       rows <- execute_product_query start_date category ;;
       ret (content_result (json_dumps_indent rows))
     else if eq_str tool_name "get_customer_orders" then
       start_date <- lift (get arguments "start_date" JNull) ;;
       min_amount <- lift (get arguments "min_amount" JNull) ;;
       rows <- execute_customer_query start_date min_amount ;;
       ret (content_result (json_dumps_indent rows))
     else raise (ValueError ("Unknown tool: " ++ py_str tool_name)))
    (fun e => ret (tool_error_result (py_str tool_name) (str_exn e))).

Definition process_request (request : json) : M World json :=
  method <- lift (get request "method" JNull) ;;
  params <- lift (get request "params" (JDict [])) ;;
  request_id <- lift (get request "id" JNull) ;;
  try_except
    (result <-
       (if eq_str method "initialize" then ret (handle_initialize params)
        else if eq_str method "tools/list" then ret handle_tools_list
        else if eq_str method "tools/call" then handle_tools_call params
        else raise (ValueError ("Unknown method: " ++ py_str method))) ;;
     ret (rpc_result result request_id))
    (fun e => ret (rpc_error (str_exn e) request_id)).

(** The Lambda entry point: the transport envelope is always status 200. *)
Definition handler (event : json) : M World json :=
  try_except
    (body <- lift (parse_body event) ;;
     is_mcp <- lift (py_in "jsonrpc" body) ;;
     if is_mcp : bool then
       response_body <- process_request body ;;
       ret (JDict [("statusCode", JInt 200);
                   ("headers", cors_headers);
                   ("body", JStr (json_dumps response_body))])
     else agentic_handler event)
    (fun e =>
       ret (JDict [("statusCode", JInt 200);
                   ("headers", cors_headers);
                   ("body",
                    JStr (json_dumps
                            (rpc_error ("Internal error: " ++ str_exn e)
                                       JNull)))])).

End MCPServer.

End Query.

(* ================================================================== *)
(** * lambda/weather: the weather tool                                 *)
(* ================================================================== *)

Module Weather.

Local Open Scope py_scope.

(** The weather agent's Lambda handler, imported as [weather_handler]; it
    is called with an event and the context [None]. *)
Class WeatherAgent : Type := {
  World : Type;
  weather_handler : json -> M World json
}.

(** [MCPServer._define_tools] *)
Definition tools : json :=
  JList
    [JDict
       [("name", JStr "get_weather_forecast");
        ("description", JStr "Get weather forecast for a specific location");
        ("inputSchema",
         JDict [("type", JStr "object");
                ("properties",
                 JDict [("location",
                         JDict [("type", JStr "string");
                                ("description",
                                 JStr "Location for weather forecast (city, zip code, etc.)")])]);
                ("required", JList [JStr "location"])])]].

Definition handle_tool_list : json := JDict [("tools", tools)].

Definition handle_initialize (params : json) : json :=
  JDict [("protocolVersion", JStr "2024-11-05");
         ("capabilities", JDict [("tools", JDict [])]);
         ("serverInfo",
          JDict [("name", JStr "database-agent");
                 ("version", JStr "1.0.0")])].

Section MCPServer.
Context `{RT : Runtime} `{Agent : WeatherAgent}.

(** The event handed to the weather agent for a location. *)
Definition forecast_event (location : json) : json :=
  JDict [("prompt", JStr ("Get weather forecast for " ++ py_str location))].

Definition _handle_weather_request (request : json) : M World json :=
  arguments <- lift (subscript request "arguments") ;;
  location <- lift (subscript arguments "location") ;;
  response <- weather_handler (forecast_event location) ;;
  ret (JDict [("response", response)]).

Definition handle_request (request : json) : M World json :=
  tool_name <- lift (get request "name" JNull) ;;
  if eq_str tool_name "get_weather_forecast" then
    _handle_weather_request request
  else raise (ValueError ("Unknown tool: " ++ py_str tool_name)).

Definition process_request (request : json) : M World json :=
  method <- lift (get request "method" JNull) ;;
  params <- lift (get request "params" (JDict [])) ;;
  request_id <- lift (get request "id" JNull) ;;
  try_except
    (result <-
       (if eq_str method "initialize" then ret (handle_initialize params)
        else if eq_str method "tools/list" then ret handle_tool_list
        else if eq_str method "tools/call" then handle_request params
        else raise (ValueError ("Unknown method: " ++ py_str method))) ;;
     ret (rpc_result result request_id))
    (fun e => ret (rpc_error (str_exn e) request_id)).

(** The Lambda entry point; nothing is caught here. *)
Definition handler (event : json) : M World json :=
  body <- lift (parse_body event) ;;
  process_request body.

End MCPServer.

End Weather.

(* ================================================================== *)
(** * Vocabulary of the properties                                     *)
(* ================================================================== *)

(** ** Requests and responses *)

Module Protocol.

Definition or_default (dflt : json) (o : option json) : json :=
  match o with Some v => v | None => dflt end.

(** What [request.get("id")], [request.get("params", {})],
    [params.get("name")] and [params.get("arguments", {})] read. *)
Definition id_of (request : list (string * json)) : json :=
  or_default JNull (lookup "id" request).
Definition params_of (request : list (string * json)) : json :=
  or_default (JDict []) (lookup "params" request).
Definition name_of (params : list (string * json)) : json :=
  or_default JNull (lookup "name" params).
Definition arguments_of (params : list (string * json)) : json :=
  or_default (JDict []) (lookup "arguments" params).

(** A [tools/call] request for the tool [name] with the parameters [params]. *)
Definition tools_call (request params : list (string * json)) (name : json)
  : Prop :=
  lookup "method" request = Some (JStr "tools/call") /\
  params_of request = JDict params /\
  name_of params = name.

(** The names a registry lists. *)
Definition tool_names (tools : json) : list string :=
  match tools with
  | JList l =>
      flat_map (fun tool =>
                  match tool with
                  | JDict d =>
                      match lookup "name" d with
                      | Some (JStr n) => [n]
                      | _ => []
                      end
                  | _ => []
                  end) l
  | _ => []
  end.

Definition registered (tools : json) (name : json) : bool :=
  existsb (eq_str name) (tool_names tools).

Definition has_key (k : string) (v : json) : bool :=
  match v with
  | JDict d => match lookup k d with Some _ => true | None => false end
  | _ => false
  end.

(** A response is a success envelope when it carries ["result"], a
    protocol-level error when it carries ["error"]. *)
Definition is_success_envelope (response : json) : bool :=
  has_key "result" response && negb (has_key "error" response).
Definition is_protocol_error (response : json) : bool :=
  has_key "error" response && negb (has_key "result" response).

(** The Content Block of the specification's data model:
    [{type: "text", text: <string>}]. *)
Definition is_content_block (v : json) : bool :=
  match v with
  | JDict d =>
      match lookup "type" d, lookup "text" d with
      | Some (JStr "text"), Some (JStr _) => true
      | _, _ => false
      end
  | _ => false
  end.

(** A tool result that carries Content Blocks under ["content"]. *)
Definition carries_content_blocks (result : json) : bool :=
  match result with
  | JDict d =>
      match lookup "content" d with
      | Some (JList (b :: bs)) => forallb is_content_block (b :: bs)
      | _ => false
      end
  | _ => false
  end.

(** The error flag of a tool result. *)
Definition is_error_flagged (result : json) : bool :=
  match result with
  | JDict d =>
      match lookup "isError" d with
      | Some (JBool true) => true
      | _ => false
      end
  | _ => false
  end.

End Protocol.

(** ** The classification a prompt receives *)

Module Classifier.

Import Query.

Inductive category : Type := revenue | product | customer.

(** One call into the data provider, with its arguments. *)
Inductive provider_call : Type :=
| RevenueQuery (start_date : json)
| ProductQuery (start_date category_filter : json)
| CustomerQuery (start_date min_amount : json).

Definition call_category (c : provider_call) : category :=
  match c with
  | RevenueQuery _ => revenue
  | ProductQuery _ _ => product
  | CustomerQuery _ _ => customer
  end.

(** The name [analyze_business_request] appends to [queries_executed] and
    the key it stores the rows under, for each category. *)
Definition query_name (c : category) : string :=
  match c with
  | revenue => "revenue_summary"
  | product => "product_sales"
  | customer => "customer_orders"
  end.

Definition data_key (c : category) : string :=
  match c with
  | revenue => "revenue"
  | product => "products"
  | customer => "customers"
  end.

Definition keywords (c : category) : list string :=
  match c with
  | revenue => revenue_keywords
  | product => product_keywords
  | customer => customer_keywords
  end.

(** Collaborators that only write down the provider calls they receive,
    in order, and answer each with an empty object. *)
Definition recorder : Collaborators := {|
  World := list provider_call;
  execute_revenue_query := fun start_date w =>
    (inr (JDict []), (w ++ [RevenueQuery start_date])%list);
  execute_product_query := fun start_date category_filter w =>
    (inr (JDict []), (w ++ [ProductQuery start_date category_filter])%list);
  execute_customer_query := fun start_date min_amount w =>
    (inr (JDict []), (w ++ [CustomerQuery start_date min_amount])%list);
  environ := fun _ _ => None;
  analyst_insights := fun _ _ _ w => (inr "", w);
  utcnow_isoformat := fun _ => ""
|}.

(** The provider calls [analyze_business_request] makes for a prompt. *)
Definition calls (text : string) : list provider_call :=
  snd (@analyze_business_request recorder (JStr text) []).

(** The classifier's output: the categories in invocation order, and the
    minimum amount handed to the customer query. *)
Definition classify (text : string) : list category :=
  map call_category (calls text).

Fixpoint min_amount_of (cs : list provider_call) : option Z :=
  match cs with
  | [] => None
  | CustomerQuery _ (JInt n) :: _ => Some n
  | CustomerQuery _ _ :: _ => None
  | _ :: rest => min_amount_of rest
  end.

Definition minAmount (text : string) : option Z := min_amount_of (calls text).

Section Aggregation.
Context `{Ext : Collaborators}.

(** The provider entry point a call is bound to. *)
Definition run_call (c : provider_call) : M World json :=
  match c with
  | RevenueQuery start_date => execute_revenue_query start_date
  | ProductQuery start_date category_filter =>
      execute_product_query start_date category_filter
  | CustomerQuery start_date min_amount =>
      execute_customer_query start_date min_amount
  end.

(** The calls one after the other; the first failure ends the run. *)
Fixpoint run_calls (cs : list provider_call) : M World (list json) :=
  match cs with
  | [] => ret []
  | c :: rest =>
      bind (run_call c) (fun rows =>
      bind (run_calls rest) (fun more => ret (rows :: more)))
  end.

(** The Aggregated Result for the outputs of the calls of a prompt. *)
Definition aggregated (text : string) (outputs : list json) : query_results :=
  {| request := JStr text;
     queries_executed := map query_name (classify text);
     data := combine (map data_key (classify text)) outputs |}.
End Aggregation.

End Classifier.

(** ** Concrete collaborators for the examples *)

Module Demo.

Import Query Classifier.

Definition quote : string := String (ascii_of_nat 34) EmptyString.

(** A small JSON printer (no escapes, no indentation), enough to read the
    examples. *)
Fixpoint show (v : json) : string :=
  match v with
  | JNull => "null"
  | JBool true => "true"
  | JBool false => "false"
  | JInt n => string_of_Z n
  | JFloat lit => lit
  | JStr s => quote ++ s ++ quote
  | JList l =>
      "[" ++ (fix items (l : list json) : string :=
                match l with
                | [] => ""
                | [x] => show x
                | x :: rest => show x ++ ", " ++ items rest
                end) l ++ "]"
  | JDict d =>
      "{" ++ (fix members (d : list (string * json)) : string :=
                match d with
                | [] => ""
                | [(k, x)] => quote ++ k ++ quote ++ ": " ++ show x
                | (k, x) :: rest =>
                    quote ++ k ++ quote ++ ": " ++ show x ++ ", " ++ members rest
                end) d ++ "}"
  end.

Definition runtime : Runtime := {|
  repr := show;
  json_dumps := show;
  json_dumps_indent := show;
  json_loads := fun _ => inl (ValueError "Expecting value")
|}.

(** A shop whose revenue and customer queries answer and whose product
    query cannot reach the database; no OpenAI key is configured.  The
    world counts the provider calls made so far. *)
Definition shop : Collaborators := {|
  World := nat;
  execute_revenue_query := fun _ w =>
    (inr (JDict [("total_revenue", JInt 4200); ("total_orders", JInt 17)]),
     S w);
  execute_product_query := fun _ _ w =>
    (inl (Exception "Database connection failed: timeout expired"), S w);
  execute_customer_query := fun _ min_amount w =>
    (inr (JDict [("total_orders_analyzed", JInt 3);
                 ("min_amount", min_amount)]), S w);
  environ := fun _ _ => None;
  analyst_insights := fun _ _ _ w => (inr "All is well.", w);
  utcnow_isoformat := fun _ => "2025-01-01T00:00:00"
|}.

(** A weather agent that answers every event with the same sentence and
    remembers the events it was sent. *)
Definition forecaster : Weather.WeatherAgent := {|
  Weather.World := list json;
  Weather.weather_handler := fun event w => (inr (JStr "Sunny, 31 C"), event :: w)
|}.

(** [{"jsonrpc": "2.0", "method": "tools/call",
      "params": {"name": name, "arguments": arguments}, "id": request_id}] *)
Definition call_request (name : string) (arguments : list (string * json))
           (request_id : json) : list (string * json) :=
  [("jsonrpc", JStr "2.0");
   ("method", JStr "tools/call");
   ("params", JDict [("name", JStr name); ("arguments", JDict arguments)]);
   ("id", request_id)].

End Demo.


(* ================================================================== *)
(** * lambda/query: the data provider behind the business tools        *)
(* ================================================================== *)

(** The three [execute_*_query] functions of [query_agent_handler.py], down
    to the database driver.  What stays outside: the driver itself
    ([psycopg2.connect], a cursor's [execute] and [fetchall], [close]), the
    calendar arithmetic of the default start dates, and the floating-point
    summaries computed from the rows. *)

Module Database.

Local Open Scope py_scope.

Class Backend : Type := {
  World : Type;
  Conn : Type;
  Row : Type;
  (** [os.environ.get(name)] *)
  getenv : World -> string -> option string;
  (** [psycopg2.connect(host=..., ..., cursor_factory=RealDictCursor)] *)
  connect : json -> M World Conn;
  (** [conn.close()] *)
  close : Conn -> M World unit;
  (** [with conn.cursor() as cursor: cursor.execute(sql, params);
      cursor.fetchall()] *)
  query_rows : Conn -> string -> list json -> M World (list Row);
  (** [(datetime.now() - timedelta(days=n)).strftime('%Y-%m-%d')] *)
  days_ago : nat -> World -> string;
  (** The dict each query function builds from its rows. *)
  summarize_revenue : list Row -> exn + json;
  summarize_products : list Row -> exn + json;
  summarize_customers : list Row -> exn + json;
  (** The language model behind [generate_business_insights] and the clock
      of [agentic_handler]. *)
  analyst : string -> Query.query_results -> json -> M World string;
  utcnow : World -> string
}.

(** [bool(v)] *)
Definition truthy (v : json) : bool :=
  match v with
  | JNull => false
  | JBool b => b
  | JInt n => negb (Z.eqb n 0)
  | JFloat lit => negb (String.eqb lit "0.0" || String.eqb lit "-0.0")
  | JStr s => negb (String.eqb s "")
  | JList l => match l with [] => false | _ :: _ => true end
  | JDict d => match d with [] => false | _ :: _ => true end
  end.

Definition revenue_sql : string :=
"
            SELECT 
                DATE(o.created_at) as order_date,
                COUNT(o.id) as order_count,
                SUM(o.total) as daily_revenue,
                AVG(o.total) as avg_order_value,
                COUNT(DISTINCT o.user_id) as unique_customers
            FROM orders o
            WHERE o.status IN ('completed', 'delivered')
              AND o.created_at >= %s
            GROUP BY DATE(o.created_at)
            ORDER BY order_date DESC
            LIMIT 30
            ".

Definition product_sql : string :=
"
            SELECT 
                p.name,
                p.category,
                SUM(oi.quantity) as total_sold,
                SUM(oi.quantity * (oi.price - COALESCE(oi.discount_amount, 0))) as total_revenue,
                AVG(oi.price) as avg_price,
                COUNT(DISTINCT o.user_id) as unique_buyers
            FROM products p
            JOIN order_items oi ON p.id = oi.product_id
            JOIN orders o ON oi.order_id = o.id
            WHERE o.status IN ('completed', 'delivered')
              AND o.created_at >= %s
            ".

Definition product_category_clause : string :=
" AND p.category = %s".

Definition product_sql_tail : string :=
"
            GROUP BY p.id, p.name, p.category
            ORDER BY total_revenue DESC
            LIMIT 15
            ".

Definition customer_sql : string :=
"
            SELECT 
                o.id,
                o.total,
                o.status,
                o.created_at,
                u.first_name || ' ' || u.last_name as customer_name,
                u.email,
                COUNT(oi.id) as item_count
            FROM orders o
            JOIN users u ON o.user_id = u.id
            LEFT JOIN order_items oi ON o.id = oi.order_id
            WHERE o.created_at >= %s
            ".

Definition customer_amount_clause : string :=
" AND o.total >= %s".

Definition customer_sql_tail : string :=
"
            GROUP BY o.id, o.total, o.status, o.created_at, u.first_name, u.last_name, u.email
            ORDER BY o.total DESC
            LIMIT 20
            ".

(** The statement and parameters [execute_product_query] sends. *)
Definition product_statement (start_date category : json)
  : string * list json :=
  if truthy category then
    (product_sql ++ product_category_clause ++ product_sql_tail,
     [start_date; category])
  else (product_sql ++ product_sql_tail, [start_date]).

(** The statement and parameters [execute_customer_query] sends. *)
Definition customer_statement (start_date min_amount : json)
  : string * list json :=
  if truthy min_amount then
    (customer_sql ++ customer_amount_clause ++ customer_sql_tail,
     [start_date; min_amount])
  else (customer_sql ++ customer_sql_tail, [start_date]).

Definition required_vars : list string :=
  ["DB_HOST"; "DB_PORT"; "DB_NAME"; "DB_USER"; "DB_PASSWORD"].

Section Provider.
Context `{B : Backend}.

(** [bool(os.environ.get(var))]: unset and empty both count as missing. *)
Definition is_set (w : World) (var : string) : bool :=
  match getenv w var with
  | Some (String _ _) => true
  | _ => false
  end.

(** [os.environ[var]] *)
Definition environ_item (w : World) (var : string) : exn + json :=
  match getenv w var with
  | Some value => inr (JStr value)
  | None => inl (KeyError var)
  end.

Definition get_database_credentials : M World json :=
  fun w =>
    match filter (fun var => negb (is_set w var)) required_vars with
    | var :: vars =>
        (inl (Exception ("Missing required environment variables: "
                         ++ String.concat ", " (var :: vars))), w)
    | [] =>
        (host <- lift (environ_item w "DB_HOST") ;;
         database <- lift (environ_item w "DB_NAME") ;;
         user <- lift (environ_item w "DB_USER") ;;
         password <- lift (environ_item w "DB_PASSWORD") ;;
         ret (JDict [("host", host);
                     ("database", database);
                     ("user", user);
                     ("password", password);
                     ("port",
                      JStr (match getenv w "DB_PORT" with
                            | Some port => port
                            | None => "5432"
                            end))])) w
    end.

(** The keyword arguments of [psycopg2.connect]. *)
Definition connect_arguments (creds : json) : exn + json :=
  match subscript creds "host", subscript creds "port",
        subscript creds "database", subscript creds "user",
        subscript creds "password" with
  | inr host, inr port, inr database, inr user, inr password =>
      inr (JDict [("host", host); ("port", port); ("database", database);
                  ("user", user); ("password", password);
                  ("sslmode", JStr "require");
                  ("connect_timeout", JInt 10);
                  ("cursor_factory", JStr "RealDictCursor")])
  | inl e, _, _, _, _ => inl e
  | _, inl e, _, _, _ => inl e
  | _, _, inl e, _, _ => inl e
  | _, _, _, inl e, _ => inl e
  | _, _, _, _, inl e => inl e
  end.

Definition connection_failed (e : exn) : exn :=
  Exception ("Database connection failed: " ++ str_exn e).

(** [with get_db_connection() as conn: body(conn)].  An exception while
    connecting or inside the body is re-raised as [connection_failed]; the
    [finally] clause closes the connection once it exists, and an exception
    of [close] replaces whatever was on its way out. *)
Definition get_db_connection {A} (body : Conn -> M World A) : M World A :=
  fun w =>
    match (creds <- get_database_credentials ;;
           arguments <- lift (connect_arguments creds) ;;
           connect arguments) w with
    | (inl e, w1) => (inl (connection_failed e), w1)
    | (inr conn, w1) =>
        match body conn w1 with
        | (inl e, w2) =>
            match close conn w2 with
            | (inl e', w3) => (inl e', w3)
            | (inr _, w3) => (inl (connection_failed e), w3)
            end
        | (inr a, w2) =>
            match close conn w2 with
            | (inl e', w3) => (inl e', w3)
            | (inr _, w3) => (inr a, w3)
            end
        end
    end.

(** [if not start_date: start_date = <today minus days>] *)
Definition default_start_date (days : nat) (start_date : json) : M World json :=
  fun w =>
    if truthy start_date then (inr start_date, w)
    else (inr (JStr (days_ago days w)), w).

Definition execute_revenue_query (start_date : json) : M World json :=
  start_date <- default_start_date 30 start_date ;;
  get_db_connection (fun conn =>
    rows <- query_rows conn revenue_sql [start_date] ;;
    lift (summarize_revenue rows)).

Definition execute_product_query (start_date category : json) : M World json :=
  start_date <- default_start_date 90 start_date ;;
  get_db_connection (fun conn =>
    rows <- query_rows conn (fst (product_statement start_date category))
                            (snd (product_statement start_date category)) ;;
    lift (summarize_products rows)).

Definition execute_customer_query (start_date min_amount : json)
  : M World json :=
  start_date <- default_start_date 60 start_date ;;
  get_db_connection (fun conn =>
    rows <- query_rows conn (fst (customer_statement start_date min_amount))
                            (snd (customer_statement start_date min_amount)) ;;
    lift (summarize_customers rows)).


End Provider.

(** A backend for the examples: the environment is a fixed table, the world
    counts the open connections, every statement returns two rows unless
    its text is empty, and a summary reports how many rows it saw. *)
Definition office (env : list (string * string)) : Backend := {|
  World := nat;
  Conn := unit;
  Row := unit;
  getenv := fun _ var =>
    match find (fun kv => String.eqb var (fst kv)) env with
    | Some kv => Some (snd kv)
    | None => None
    end;
  connect := fun _ w => (inr tt, S w);
  close := fun _ w => (inr tt, pred w);
  query_rows := fun _ sql _ w =>
    if String.eqb sql "" then (inl (Exception "syntax error"), w)
    else (inr [tt; tt], w);
  days_ago := fun n _ => "today-" ++ string_of_Z (Z.of_nat n);
  summarize_revenue := fun rows =>
    inr (JDict [("days_analyzed", JInt (Z.of_nat (length rows)))]);
  summarize_products := fun rows =>
    inr (JDict [("total_products_analyzed", JInt (Z.of_nat (length rows)))]);
  summarize_customers := fun _ => inl (TypeError "float() argument");
  analyst := fun _ _ _ w => (inr "Insights.", w);
  utcnow := fun _ => "2025-01-01T00:00:00"
|}.

Definition full_env : list (string * string) :=
  [("DB_HOST", "db.internal"); ("DB_PORT", "6543"); ("DB_NAME", "shop");
   ("DB_USER", "reader"); ("DB_PASSWORD", "secret")].

End Database.

(** ** Letters *)

Module Letters.

Definition is_upper (c : ascii) : bool :=
  (65 <=? nat_of_ascii c)%nat && (nat_of_ascii c <=? 90)%nat.

Definition is_lower (c : ascii) : bool :=
  (97 <=? nat_of_ascii c)%nat && (nat_of_ascii c <=? 122)%nat.

(** A string without letters, such as "$" or "200". *)
Fixpoint caseless (s : string) : bool :=
  match s with
  | EmptyString => true
  | String c s' => negb (is_upper c) && negb (is_lower c) && caseless s'
  end.

(** How many times [needle] starts in [s]. *)
Fixpoint occurrences (needle s : string) : nat :=
  match s with
  | EmptyString => 0
  | String _ rest =>
      (if String.prefix needle s then 1 else 0) + occurrences needle rest
  end.

End Letters.

(** ** More collaborators for the examples *)

Module Demo2.

(** A weather agent that is down: every event fails, quoting its prompt;
    the world counts the attempts. *)
Definition offline : Weather.WeatherAgent := {|
  Weather.World := nat;
  Weather.weather_handler := fun event w =>
    (inl (Exception ("upstream timeout: "
                     ++ match event with
                        | JDict [(_, JStr prompt)] => prompt
                        | _ => ""
                        end)), S w)
|}.

End Demo2.
(* ================================================================== *)
(** * Properties                                                       *)
(* ================================================================== *)

(** ** Dictionaries and requests *)

Module ProtocolFacts.

Import Protocol.

Lemma get_dict (d : list (string * json)) (k : string) (dflt : json) :
  get (JDict d) k dflt = inr (or_default dflt (lookup k d)).
Proof. reflexivity. Qed.

(** An unregistered name is none of the four business tools. *)
Lemma unregistered_query (name : json) :
  registered Query.tools name = false ->
  eq_str name "query_business_data" = false /\
  eq_str name "get_revenue_summary" = false /\
  eq_str name "get_product_performance" = false /\
  eq_str name "get_customer_orders" = false.
Proof.
  unfold registered. cbn [tool_names Query.tools flat_map lookup app existsb].
  cbn. intros H.
  repeat (apply orb_false_elim in H; destruct H as [? H]).
  auto.
Qed.

Lemma unregistered_weather (name : json) :
  registered Weather.tools name = false ->
  eq_str name "get_weather_forecast" = false.
Proof.
  unfold registered. cbn. intros H.
  apply orb_false_elim in H. tauto.
Qed.

End ProtocolFacts.

(** ** The business-data dispatcher *)

Module QueryFacts.

Import Query Classifier Protocol ProtocolFacts.
Local Open Scope py_scope.

Section Generic.
Context `{RT : Runtime} `{Ext : Collaborators}.

(** [process_request] on a [tools/call]: whatever [handle_tools_call]
    does, the answer is a response carrying the request's id. *)
Lemma process_tools_call request params name (w : World) :
  tools_call request params name ->
  process_request (JDict request) w =
  match handle_tools_call (JDict params) w with
  | (inl e, w') => (inr (rpc_error (str_exn e) (id_of request)), w')
  | (inr result, w') => (inr (rpc_result result (id_of request)), w')
  end.
Proof.
  intros (Hmethod & Hparams & _).
  unfold process_request, bind, lift, try_except, ret.
  rewrite !get_dict. fold (params_of request) (id_of request).
  rewrite Hparams, Hmethod. cbn -[handle_tools_call].
  destruct (handle_tools_call (JDict params) w) as [[e | result] w'];
    reflexivity.
Qed.

(** [handle_tools_call] never raises for a dict of parameters. *)
Lemma handle_tools_call_total params (w : World) :
  exists result w', handle_tools_call (JDict params) w = (inr result, w').
Proof.
  unfold handle_tools_call, bind, lift, try_except, ret.
  rewrite !get_dict.
  match goal with
  | |- context [match ?body w with _ => _ end] =>
      destruct (body w) as [[e | result] w']
  end; eauto.
Qed.

(** The narrated tool, once its free text is extracted. *)
Lemma narrated_tool_call params query (w : World) :
  name_of params = JStr "query_business_data" ->
  get (arguments_of params) "query" (JStr default_prompt) = inr query ->
  handle_tools_call (JDict params) w =
  match analyze_business_request query w with
  | (inl e, w') =>
      (inr (tool_error_result "query_business_data" (str_exn e)), w')
  | (inr results, w') =>
      match generate_business_insights results query w' with
      | (inl e, w'') =>
          (inr (tool_error_result "query_business_data" (str_exn e)), w'')
      | (inr insights, w'') => (inr (content_result insights), w'')
      end
  end.
Proof.
  intros Hname Hquery.
  unfold handle_tools_call, bind, lift, try_except, ret.
  rewrite !get_dict. fold (name_of params) (arguments_of params).
  rewrite Hname. cbn. rewrite Hquery.
  destruct (analyze_business_request query w) as [[e | results] w'];
    [reflexivity |].
  destruct (generate_business_insights results query w') as [[e | s] w''];
    reflexivity.
Qed.

(** [analyze_business_request] makes exactly the provider calls of the
    prompt's classification, in order, stops at the first failure, and
    otherwise returns their outputs keyed by category. *)
Lemma analyze_runs_calls (text : string) (w : World) :
  analyze_business_request (JStr text) w =
  match run_calls (calls text) w with
  | (inl e, w') => (inl e, w')
  | (inr outputs, w') => (inr (aggregated text outputs), w')
  end.
Proof.
  unfold aggregated, classify, calls, analyze_business_request.
  destruct (any_in revenue_keywords (lower text));
    destruct (any_in product_keywords (lower text));
    destruct (any_in customer_keywords (lower text));
    cbn;
    unfold bind, ret;
    repeat match goal with
           | |- context [execute_revenue_query ?a ?w] =>
               destruct (execute_revenue_query a w) as [[?|?] ?]; cbn
           | |- context [execute_product_query ?a ?b ?w] =>
               destruct (execute_product_query a b w) as [[?|?] ?]; cbn
           | |- context [execute_customer_query ?a ?b ?w] =>
               destruct (execute_customer_query a b w) as [[?|?] ?]; cbn
           end;
    reflexivity.
Qed.

(** When every provider call of the classification answers, the
    aggregation returns. *)
Lemma analyze_returns (text : string) outputs (w w' : World) :
  run_calls (calls text) w = (inr outputs, w') ->
  analyze_business_request (JStr text) w = (inr (aggregated text outputs), w').
Proof. intros Hrun. rewrite analyze_runs_calls, Hrun. reflexivity. Qed.

Lemma run_calls_app (before after : list provider_call) (w : World) :
  run_calls (before ++ after) w =
  match run_calls before w with
  | (inl e, w') => (inl e, w')
  | (inr outputs, w') =>
      match run_calls after w' with
      | (inl e, w'') => (inl e, w'')
      | (inr more, w'') => (inr (outputs ++ more)%list, w'')
      end
  end.
Proof.
  revert w. induction before as [| c before IH]; intros w; cbn.
  - unfold ret. destruct (run_calls after w) as [[e | more] w']; reflexivity.
  - unfold bind, ret.
    destruct (run_call c w) as [[e | rows] w1]; [reflexivity |].
    rewrite IH.
    destruct (run_calls before w1) as [[e | outputs] w2]; [reflexivity |].
    destruct (run_calls after w2) as [[e | more] w3]; reflexivity.
Qed.

(** A call that fails after its predecessors succeeded fails the run,
    with its own exception. *)
Lemma run_calls_failure before c after outputs e (w w0 w' : World) :
  run_calls before w = (inr outputs, w0) ->
  run_call c w0 = (inl e, w') ->
  run_calls (before ++ c :: after) w = (inl e, w').
Proof.
  intros Hbefore Hcall.
  rewrite run_calls_app, Hbefore. cbn. unfold bind. rewrite Hcall.
  reflexivity.
Qed.

(** Narration never raises: a failure becomes the degraded text. *)
Lemma generate_business_insights_run results query (w : World) :
  generate_business_insights results query w =
  match insights_attempt results query w with
  | (inl e, w') => (inr (degraded_insights e results), w')
  | (inr insights, w') => (inr insights, w')
  end.
Proof. reflexivity. Qed.
End Generic.

(** The classification follows the rule table: the categories whose
    keywords occur, in table order, or the general overview. *)
Lemma classify_rule_table (text : string) :
  classify text =
  match filter (fun c => any_in (keywords c) (lower text))
               [revenue; product; customer] with
  | [] => [revenue; product]
  | selected => selected
  end.
Proof.
  unfold classify, calls, analyze_business_request. cbn [filter keywords].
  destruct (any_in revenue_keywords (lower text));
    destruct (any_in product_keywords (lower text));
    destruct (any_in customer_keywords (lower text)); reflexivity.
Qed.

(** The customer query, when made, carries the amount filter. *)
Lemma customer_call (text : string) :
  any_in customer_keywords (lower text) = true ->
  In (CustomerQuery JNull (min_amount_filter text (lower text))) (calls text) /\
  min_amount_of (calls text) =
  match min_amount_filter text (lower text) with
  | JInt n => Some n
  | _ => None
  end.
Proof.
  intros Hcustomer.
  unfold calls, analyze_business_request. rewrite Hcustomer.
  destruct (any_in revenue_keywords (lower text));
    destruct (any_in product_keywords (lower text)); cbn; auto.
Qed.

Lemma classify_nodup (text : string) : NoDup (classify text).
Proof.
  rewrite classify_rule_table. cbn [filter keywords].
  destruct (any_in revenue_keywords (lower text));
    destruct (any_in product_keywords (lower text));
    destruct (any_in customer_keywords (lower text));
    repeat constructor; cbn; intuition discriminate.
Qed.

Lemma classify_nonempty (text : string) : classify text <> [].
Proof.
  rewrite classify_rule_table. cbn [filter keywords].
  destruct (any_in revenue_keywords (lower text));
    destruct (any_in product_keywords (lower text));
    destruct (any_in customer_keywords (lower text)); discriminate.
Qed.

End QueryFacts.

(** ** The weather dispatcher *)

Module WeatherFacts.

Import Weather Protocol ProtocolFacts.
Local Open Scope py_scope.

Section Generic.
Context `{RT : Runtime} `{Agent : WeatherAgent}.

(** [process_request] on a [tools/call]: an exception of
    [handle_request] becomes the protocol error object. *)
Lemma weather_process_tools_call request params name (w : World) :
  tools_call request params name ->
  process_request (JDict request) w =
  match handle_request (JDict params) w with
  | (inl e, w') => (inr (rpc_error (str_exn e) (id_of request)), w')
  | (inr result, w') => (inr (rpc_result result (id_of request)), w')
  end.
Proof.
  intros (Hmethod & Hparams & _).
  unfold process_request, bind, lift, try_except, ret.
  rewrite !get_dict. fold (params_of request) (id_of request).
  rewrite Hparams, Hmethod. cbn -[handle_request].
  destruct (handle_request (JDict params) w) as [[e | result] w'];
    reflexivity.
Qed.

Lemma forecast_call params (w : World) :
  name_of params = JStr "get_weather_forecast" ->
  handle_request (JDict params) w =
  _handle_weather_request (JDict params) w.
Proof.
  intros Hname. unfold handle_request, bind, lift.
  rewrite get_dict. fold (name_of params). rewrite Hname. reflexivity.
Qed.
End Generic.

End WeatherFacts.

(* ================================================================== *)
(** * The claims of the specification                                  *)
(* ================================================================== *)

Import Protocol.
Local Open Scope py_scope.

(** ** Unknown tools *)

(** C1 (as amended).  A [tools/call] whose tool name is outside the
    registry is answered differently by the two dispatchers.  The
    business-data dispatcher answers with a success envelope whose result
    is flagged [isError] and holds the single text block
    "Error executing <name>: Unknown tool: <name>".  The weather dispatcher
    has no tool-level error result: it answers with the protocol error
    object, code -32603, message "Unknown tool: <name>".  Neither touches
    the outside world. *)
Theorem unknown_tool_by_dispatcher
  `{RT : Runtime} `{Ext : Query.Collaborators} `{Agent : Weather.WeatherAgent}
  (request params : list (string * json)) (name : json)
  (w : Query.World) (ww : Weather.World) :
  tools_call request params name ->
  (registered Query.tools name = false ->
   Query.process_request (JDict request) w =
   (inr (JDict
           [("jsonrpc", JStr "2.0");
            ("result",
             JDict [("content",
                     JList [JDict [("type", JStr "text");
                                   ("text",
                                    JStr ("Error executing " ++ py_str name
                                          ++ ": Unknown tool: "
                                          ++ py_str name))]]);
                    ("isError", JBool true)]);
            ("id", match lookup "id" request with
                   | Some request_id => request_id
                   | None => JNull
                   end)]), w)) /\
  (registered Weather.tools name = false ->
   Weather.process_request (JDict request) ww =
   (inr (JDict
           [("jsonrpc", JStr "2.0");
            ("error",
             JDict [("code", JInt (-32603));
                    ("message", JStr ("Unknown tool: " ++ py_str name))]);
            ("id", match lookup "id" request with
                   | Some request_id => request_id
                   | None => JNull
                   end)]), ww)).
Proof.
  intros Hcall. split; intros Hunknown.
  - rewrite (QueryFacts.process_tools_call w Hcall).
    destruct Hcall as (_ & _ & Hname).
    apply ProtocolFacts.unregistered_query in Hunknown.
    destruct Hunknown as (H1 & H2 & H3 & H4).
    unfold Query.handle_tools_call, bind, lift, try_except, ret, raise.
    rewrite !ProtocolFacts.get_dict. fold (name_of params).
    rewrite Hname, H1, H2, H3, H4. reflexivity.
  - rewrite (WeatherFacts.weather_process_tools_call ww Hcall).
    destruct Hcall as (_ & _ & Hname).
    apply ProtocolFacts.unregistered_weather in Hunknown.
    unfold Weather.handle_request, bind, lift, raise.
    rewrite ProtocolFacts.get_dict. fold (name_of params).
    rewrite Hname, Hunknown. reflexivity.
Qed.

Lemma unknown_tool_by_dispatcher_witness :
  let request := Demo.call_request "get_stock_price" [] (JInt 7) in
  @Query.process_request Demo.runtime Demo.shop (JDict request) 0%nat =
  (inr (rpc_result
          (JDict [("content",
                   JList [text_block "Error executing get_stock_price: Unknown tool: get_stock_price"]);
                  ("isError", JBool true)])
          (JInt 7)), 0%nat) /\
  @Weather.process_request Demo.runtime Demo.forecaster (JDict request) [] =
  (inr (rpc_error "Unknown tool: get_stock_price" (JInt 7)), []).
Proof.
  pose proof (@unknown_tool_by_dispatcher Demo.runtime Demo.shop Demo.forecaster
                (Demo.call_request "get_stock_price" [] (JInt 7))
                [("name", JStr "get_stock_price"); ("arguments", JDict [])]
                (JStr "get_stock_price") 0%nat []) as H.
  destruct H as [Hq Hw].
  - repeat split; reflexivity.
  - split; [apply Hq | apply Hw]; reflexivity.
Defined.

(** C1, the claim as the specification words it, fails for the weather
    dispatcher: the unregistered name "get_stock_price" is answered with a
    protocol-level error, not with a success envelope around an [isError]
    result. *)
Lemma unknown_tool_weather_counterexample :
  let request := Demo.call_request "get_stock_price" [] (JInt 7) in
  let answer :=
    @Weather.process_request Demo.runtime Demo.forecaster (JDict request) [] in
  registered Weather.tools (JStr "get_stock_price") = false /\
  fst answer = inr (rpc_error "Unknown tool: get_stock_price" (JInt 7)) /\
  is_protocol_error (rpc_error "Unknown tool: get_stock_price" (JInt 7)) = true /\
  ~ (exists response result,
        fst answer = inr response /\
        is_success_envelope response = true /\
        response = rpc_result result (JInt 7) /\
        is_error_flagged result = true).
Proof.
  cbv zeta. repeat split.
  intros (response & result & Hanswer & Hsuccess & _).
  vm_compute in Hanswer. inversion Hanswer; subst response.
  vm_compute in Hsuccess. discriminate.
Qed.

(** ** Failures inside the narrated business tool *)

(** C2.  A [tools/call] to [query_business_data] during whose aggregation
    a Data Provider call fails, after the calls [before] it returned
    [outputs], is answered with a success envelope whose result is exactly
    one text block, "Error executing query_business_data: <failure>",
    flagged [isError].  The answer is built from the tool name, the failure
    and the request id alone: the [outputs] already obtained occur nowhere
    in it. *)
Theorem provider_failure_single_error_block
  `{RT : Runtime} `{Ext : Query.Collaborators}
  (request params : list (string * json)) (text : string)
  (before after : list Classifier.provider_call) (c : Classifier.provider_call)
  (outputs : list json) (e : exn) (w w0 w' : Query.World) :
  tools_call request params (JStr "query_business_data") ->
  get (arguments_of params) "query" (JStr Query.default_prompt)
  = inr (JStr text) ->
  Classifier.calls text = (before ++ c :: after)%list ->
  Classifier.run_calls before w = (inr outputs, w0) ->
  Classifier.run_call c w0 = (inl e, w') ->
  Query.process_request (JDict request) w =
  (inr (JDict
          [("jsonrpc", JStr "2.0");
           ("result",
            JDict [("content",
                    JList [JDict [("type", JStr "text");
                                  ("text",
                                   JStr ("Error executing query_business_data: "
                                         ++ str_exn e))]]);
                   ("isError", JBool true)]);
           ("id", match lookup "id" request with
                  | Some request_id => request_id
                  | None => JNull
                  end)]), w').
Proof.
  intros Hcall Hquery Hcalls Hbefore Hfail.
  rewrite (QueryFacts.process_tools_call w Hcall).
  destruct Hcall as (_ & _ & Hname).
  rewrite (QueryFacts.narrated_tool_call params w Hname Hquery).
  rewrite QueryFacts.analyze_runs_calls, Hcalls.
  erewrite QueryFacts.run_calls_failure by eassumption.
  reflexivity.
Qed.

Lemma provider_failure_single_error_block_witness :
  let request :=
    Demo.call_request "query_business_data"
                      [("query", JStr "revenue per product")] (JStr "abc") in
  Classifier.calls "revenue per product" =
  [Classifier.RevenueQuery JNull; Classifier.ProductQuery JNull JNull] /\
  @Classifier.run_calls Demo.shop [Classifier.RevenueQuery JNull] 0%nat =
  (inr [JDict [("total_revenue", JInt 4200); ("total_orders", JInt 17)]],
   1%nat) /\
  @Query.process_request Demo.runtime Demo.shop (JDict request) 0%nat =
  (inr (JDict
          [("jsonrpc", JStr "2.0");
           ("result",
            JDict [("content",
                    JList [JDict [("type", JStr "text");
                                  ("text",
                                   JStr "Error executing query_business_data: Database connection failed: timeout expired")]]);
                   ("isError", JBool true)]);
           ("id", JStr "abc")]), 2%nat).
Proof.
  cbv zeta. split; [reflexivity | split; [reflexivity |]].
  apply (@provider_failure_single_error_block Demo.runtime Demo.shop
           (Demo.call_request "query_business_data"
                              [("query", JStr "revenue per product")]
                              (JStr "abc"))
           [("name", JStr "query_business_data");
            ("arguments", JDict [("query", JStr "revenue per product")])]
           "revenue per product"
           [Classifier.RevenueQuery JNull] []
           (Classifier.ProductQuery JNull JNull)
           [JDict [("total_revenue", JInt 4200); ("total_orders", JInt 17)]]
           (Exception "Database connection failed: timeout expired")
           0%nat 1%nat 2%nat).
  - repeat split; reflexivity.
  - reflexivity.
  - reflexivity.
  - reflexivity.
  - reflexivity.
Defined.

(** C3.  A [tools/call] to [query_business_data] whose aggregation
    succeeded with [results] and whose narration then failed with [e] does
    not fail: the tool result is one text block, not flagged [isError],
    whose text is the degradation notice followed by the serialised
    [results]; the Lambda answers with status 200 and the success envelope
    around that result. *)
Theorem narrative_failure_degrades
  `{RT : Runtime} `{Ext : Query.Collaborators}
  (event : json) (request params : list (string * json)) (query : json)
  (results : Query.query_results) (e : exn) (w w1 w2 : Query.World) :
  parse_body event = inr (JDict request) ->
  has_key "jsonrpc" (JDict request) = true ->
  tools_call request params (JStr "query_business_data") ->
  get (arguments_of params) "query" (JStr Query.default_prompt) = inr query ->
  Query.analyze_business_request query w = (inr results, w1) ->
  Query.insights_attempt results query w1 = (inl e, w2) ->
  let line_feed := String (ascii_of_nat 10) EmptyString in
  let degraded :=
    "Data retrieved successfully, but analysis failed: " ++ str_exn e
    ++ line_feed ++ line_feed ++ "Raw data: "
    ++ json_dumps_indent
         (JDict [("request", Query.request results);
                 ("queries_executed",
                  JList (map JStr (Query.queries_executed results)));
                 ("data", JDict (Query.data results))]) in
  let result :=
    JDict [("content",
            JList [JDict [("type", JStr "text"); ("text", JStr degraded)]])] in
  Query.handle_tools_call (JDict params) w = (inr result, w2) /\
  is_error_flagged result = false /\
  Query.handler event w =
  (inr (JDict
          [("statusCode", JInt 200);
           ("headers",
            JDict [("Content-Type", JStr "application/json");
                   ("Access-Control-Allow-Origin", JStr "*")]);
           ("body",
            JStr (json_dumps
                    (JDict [("jsonrpc", JStr "2.0");
                            ("result", result);
                            ("id", match lookup "id" request with
                                   | Some request_id => request_id
                                   | None => JNull
                                   end)])))]),
   w2).
Proof.
  intros Hbody Hmcp Hcall Hquery Haggregate Hnarrate line_feed degraded result.
  assert (Htool : Query.handle_tools_call (JDict params) w = (inr result, w2)).
  { destruct Hcall as (_ & _ & Hname).
    rewrite (QueryFacts.narrated_tool_call params w Hname Hquery), Haggregate.
    rewrite QueryFacts.generate_business_insights_run, Hnarrate.
    reflexivity. }
  split; [exact Htool | split; [reflexivity |]].
  unfold Query.handler, bind, lift, try_except, ret.
  rewrite Hbody.
  assert (Hin : py_in "jsonrpc" (JDict request) = inr true).
  { cbn in Hmcp |- *. destruct (lookup "jsonrpc" request);
      [reflexivity | discriminate]. }
  rewrite Hin.
  rewrite (QueryFacts.process_tools_call w Hcall), Htool.
  reflexivity.
Qed.

Lemma narrative_failure_degrades_witness :
  let request :=
    Demo.call_request "query_business_data"
                      [("query", JStr "Show me revenue trends")] JNull in
  let rows := JDict [("total_revenue", JInt 4200); ("total_orders", JInt 17)] in
  let results :=
    {| Query.request := JStr "Show me revenue trends";
       Query.queries_executed := ["revenue_summary"];
       Query.data := [("revenue", rows)] |} in
  let line_feed := String (ascii_of_nat 10) EmptyString in
  let degraded :=
    "Data retrieved successfully, but analysis failed: OpenAI API key not found. Set OPENAI_API_KEY or OPENAI_KEY environment variable."
    ++ line_feed ++ line_feed ++ "Raw data: "
    ++ Demo.show
         (JDict [("request", JStr "Show me revenue trends");
                 ("queries_executed", JList [JStr "revenue_summary"]);
                 ("data", JDict [("revenue", rows)])]) in
  @Query.analyze_business_request Demo.shop (JStr "Show me revenue trends")
                                  0%nat = (inr results, 1%nat) /\
  @Query.handler Demo.runtime Demo.shop (JDict request) 0%nat =
  (inr (JDict
          [("statusCode", JInt 200);
           ("headers",
            JDict [("Content-Type", JStr "application/json");
                   ("Access-Control-Allow-Origin", JStr "*")]);
           ("body",
            JStr (Demo.show
                    (JDict
                       [("jsonrpc", JStr "2.0");
                        ("result",
                         JDict [("content",
                                 JList [JDict [("type", JStr "text");
                                               ("text", JStr degraded)]])]);
                        ("id", JNull)])))]),
   1%nat).
Proof.
  cbv zeta. split; [reflexivity |].
  apply (@narrative_failure_degrades Demo.runtime Demo.shop
           (JDict (Demo.call_request "query_business_data"
                     [("query", JStr "Show me revenue trends")] JNull))
           (Demo.call_request "query_business_data"
                     [("query", JStr "Show me revenue trends")] JNull)
           [("name", JStr "query_business_data");
            ("arguments", JDict [("query", JStr "Show me revenue trends")])]
           (JStr "Show me revenue trends")
           {| Query.request := JStr "Show me revenue trends";
              Query.queries_executed := ["revenue_summary"];
              Query.data :=
                [("revenue",
                  JDict [("total_revenue", JInt 4200);
                         ("total_orders", JInt 17)])] |}
           (Exception "OpenAI API key not found. Set OPENAI_API_KEY or OPENAI_KEY environment variable.")
           0%nat 1%nat 1%nat).
  - reflexivity.
  - reflexivity.
  - repeat split; reflexivity.
  - reflexivity.
  - reflexivity.
  - reflexivity.
Defined.

(** ** The classifier *)

(** C4.  When the customer category is selected and the amount heuristic
    qualifies (the raw text holds "$" or the lowercased text holds "over"),
    a raw text holding both "200" and "500" gets the minimum amount 200:
    the customer query is called with it. *)
Theorem first_match_priority (text : string) :
  any_in Query.customer_keywords (lower text) = true ->
  contains "$" text || contains "over" (lower text) = true ->
  contains "200" text = true ->
  contains "500" text = true ->
  Classifier.minAmount text = Some 200%Z /\
  In (Classifier.CustomerQuery JNull (JInt 200)) (Classifier.calls text).
Proof.
  intros Hcustomer Hqualifies H200 _.
  destruct (QueryFacts.customer_call text Hcustomer) as [Hin Hmin].
  unfold Classifier.minAmount. revert Hin Hmin.
  unfold Query.min_amount_filter. rewrite Hqualifies, H200.
  intros Hin Hmin. split; assumption.
Qed.

Lemma first_match_priority_witness :
  Classifier.minAmount "customer orders over $500 or $200" = Some 200%Z /\
  In (Classifier.CustomerQuery JNull (JInt 200))
     (Classifier.calls "customer orders over $500 or $200").
Proof.
  apply (first_match_priority "customer orders over $500 or $200");
    reflexivity.
Defined.

(** C5.  The four reference prompts: "Show me revenue trends" selects
    revenue only; "top bestseller products" selects product only;
    "customer orders over $500" selects customer only with minimum amount
    500; "hello" falls back to revenue and product without a minimum
    amount. *)
Theorem reference_examples :
  (Classifier.classify "Show me revenue trends" = [Classifier.revenue] /\
   Classifier.minAmount "Show me revenue trends" = None) /\
  (Classifier.classify "top bestseller products" = [Classifier.product] /\
   Classifier.minAmount "top bestseller products" = None) /\
  (Classifier.classify "customer orders over $500" = [Classifier.customer] /\
   Classifier.minAmount "customer orders over $500" = Some 500%Z) /\
  (Classifier.classify "hello" = [Classifier.revenue; Classifier.product] /\
   Classifier.minAmount "hello" = None).
Proof. repeat split; vm_compute; reflexivity. Qed.

(** C6.  Whenever [analyze_business_request] returns, its
    [queries_executed] list names the categories of the prompt's
    classification, in the same order; that classification follows the rule
    table (revenue, product, customer, each at most once, or the fallback
    revenue, product), so the list is never empty. *)
Theorem executed_follows_classification
  `{Ext : Query.Collaborators}
  (text : string) (results : Query.query_results) (w w' : Query.World) :
  Query.analyze_business_request (JStr text) w = (inr results, w') ->
  Query.queries_executed results
  = map Classifier.query_name (Classifier.classify text) /\
  Classifier.classify text =
  match filter (fun c => any_in (Classifier.keywords c) (lower text))
               [Classifier.revenue; Classifier.product; Classifier.customer]
  with
  | [] => [Classifier.revenue; Classifier.product]
  | selected => selected
  end /\
  NoDup (Classifier.classify text) /\
  Query.queries_executed results <> [].
Proof.
  intros Hrun. rewrite QueryFacts.analyze_runs_calls in Hrun.
  destruct (Classifier.run_calls (Classifier.calls text) w)
    as [[e | outputs] w1]; [discriminate |].
  inversion Hrun; subst results w1. cbn [Classifier.aggregated Query.queries_executed].
  repeat split.
  - apply QueryFacts.classify_rule_table.
  - apply QueryFacts.classify_nodup.
  - intros Hempty. apply map_eq_nil in Hempty.
    exact (QueryFacts.classify_nonempty text Hempty).
Qed.

Lemma executed_follows_classification_witness :
  let results :=
    {| Query.request := JStr "vip customer revenue";
       Query.queries_executed := ["revenue_summary"; "customer_orders"];
       Query.data :=
         [("revenue",
           JDict [("total_revenue", JInt 4200); ("total_orders", JInt 17)]);
          ("customers",
           JDict [("total_orders_analyzed", JInt 3);
                  ("min_amount", JNull)])] |} in
  @Query.analyze_business_request Demo.shop (JStr "vip customer revenue")
                                  0%nat = (inr results, 2%nat) /\
  Query.queries_executed results
  = map Classifier.query_name (Classifier.classify "vip customer revenue") /\
  Query.queries_executed results <> [].
Proof.
  cbv zeta. split; [reflexivity |].
  destruct (@executed_follows_classification Demo.shop "vip customer revenue"
              {| Query.request := JStr "vip customer revenue";
                 Query.queries_executed :=
                   ["revenue_summary"; "customer_orders"];
                 Query.data :=
                   [("revenue",
                     JDict [("total_revenue", JInt 4200);
                            ("total_orders", JInt 17)]);
                    ("customers",
                     JDict [("total_orders_analyzed", JInt 3);
                            ("min_amount", JNull)])] |}
              0%nat 2%nat eq_refl) as (Hnames & _ & _ & Hnonempty).
  split; assumption.
Defined.

(** C10.  A [tools/call] to [query_business_data] without a "query"
    argument behaves as one whose query is "Show me a business performance
    summary"; that prompt is classified as revenue alone, so the revenue
    query is the only provider call and the general-overview fallback does
    not run. *)
Theorem default_prompt_revenue_only
  `{RT : Runtime} `{Ext : Query.Collaborators}
  (params arguments : list (string * json)) (w : Query.World) :
  name_of params = JStr "query_business_data" ->
  arguments_of params = JDict arguments ->
  lookup "query" arguments = None ->
  Query.handle_tools_call (JDict params) w
  = Query.handle_tools_call
      (JDict [("name", JStr "query_business_data");
              ("arguments",
               JDict [("query",
                       JStr "Show me a business performance summary")])]) w /\
  Classifier.classify "Show me a business performance summary"
  = [Classifier.revenue] /\
  Query.analyze_business_request
    (JStr "Show me a business performance summary") w
  = match Query.execute_revenue_query JNull w with
    | (inl e, w') => (inl e, w')
    | (inr rows, w') =>
        (inr {| Query.request := JStr "Show me a business performance summary";
                Query.queries_executed := ["revenue_summary"];
                Query.data := [("revenue", rows)] |}, w')
    end /\
  Query.handle_tools_call (JDict params) w
  = match Query.execute_revenue_query JNull w with
    | (inl e, w1) =>
        (inr (JDict
                [("content",
                  JList [JDict [("type", JStr "text");
                                ("text",
                                 JStr ("Error executing query_business_data: "
                                       ++ str_exn e))]]);
                 ("isError", JBool true)]), w1)
    | (inr rows, w1) =>
        match
          Query.generate_business_insights
            {| Query.request := JStr "Show me a business performance summary";
               Query.queries_executed := ["revenue_summary"];
               Query.data := [("revenue", rows)] |}
            (JStr "Show me a business performance summary") w1
        with
        | (inl e, w2) =>
            (inr (JDict
                    [("content",
                      JList [JDict [("type", JStr "text");
                                    ("text",
                                     JStr ("Error executing query_business_data: "
                                           ++ str_exn e))]]);
                     ("isError", JBool true)]), w2)
        | (inr insights, w2) =>
            (inr (JDict
                    [("content",
                      JList [JDict [("type", JStr "text");
                                    ("text", JStr insights)]])]), w2)
        end
    end /\
  snd (@Query.handle_tools_call RT Classifier.recorder (JDict params) [])
  = [Classifier.RevenueQuery JNull].
Proof.
  intros Hname Harguments Hquery.
  assert (Hq : get (arguments_of params) "query" (JStr Query.default_prompt)
               = inr (JStr Query.default_prompt)).
  { rewrite Harguments, ProtocolFacts.get_dict, Hquery. reflexivity. }
  assert (Hrun : forall (E : Query.Collaborators) (v : Query.World),
             Query.analyze_business_request
               (JStr "Show me a business performance summary") v
             = match Query.execute_revenue_query JNull v with
               | (inl e, v') => (inl e, v')
               | (inr rows, v') =>
                   (inr {| Query.request :=
                             JStr "Show me a business performance summary";
                           Query.queries_executed := ["revenue_summary"];
                           Query.data := [("revenue", rows)] |}, v')
               end).
  { intros E v. rewrite QueryFacts.analyze_runs_calls.
    change (Classifier.calls "Show me a business performance summary")
      with [Classifier.RevenueQuery JNull].
    cbn. unfold bind, ret.
    destruct (Query.execute_revenue_query JNull v) as [[e | rows] v'];
      reflexivity. }
  split; [| split; [| split; [| split]]].
  - rewrite (QueryFacts.narrated_tool_call params w Hname Hq).
    symmetry. apply QueryFacts.narrated_tool_call; reflexivity.
  - reflexivity.
  - apply Hrun.
  - rewrite (QueryFacts.narrated_tool_call params w Hname Hq).
    change (JStr Query.default_prompt)
      with (JStr "Show me a business performance summary").
    rewrite Hrun.
    destruct (Query.execute_revenue_query JNull w) as [[e | rows] w1];
      reflexivity.
  - rewrite (@QueryFacts.narrated_tool_call RT Classifier.recorder params
               (JStr Query.default_prompt) [] Hname Hq).
    reflexivity.
Qed.

Lemma default_prompt_revenue_only_witness :
  @Query.handle_tools_call Demo.runtime Demo.shop
    (JDict [("name", JStr "query_business_data")]) 0%nat
  = @Query.handle_tools_call Demo.runtime Demo.shop
      (JDict [("name", JStr "query_business_data");
              ("arguments",
               JDict [("query",
                       JStr "Show me a business performance summary")])])
      0%nat /\
  snd (@Query.handle_tools_call Demo.runtime Demo.shop
         (JDict [("name", JStr "query_business_data")]) 0%nat) = 1%nat.
Proof.
  split; [| reflexivity].
  apply (@default_prompt_revenue_only Demo.runtime Demo.shop
           [("name", JStr "query_business_data")] [] 0%nat); reflexivity.
Defined.

(** ** The request id *)

(** C7.  Both dispatchers answer every request object with a response that
    carries under "id" the value the request holds under "id" (null, 0,
    "abc", anything), or null when the request has no "id", be the response
    the success object or the error object. *)
Theorem request_id_round_trip
  `{RT : Runtime} `{Ext : Query.Collaborators} `{Agent : Weather.WeatherAgent}
  (request : list (string * json)) (w : Query.World) (ww : Weather.World) :
  let request_id :=
    match lookup "id" request with
    | Some inbound => inbound
    | None => JNull
    end in
  (exists w',
      (exists result,
          Query.process_request (JDict request) w =
          (inr (JDict [("jsonrpc", JStr "2.0");
                       ("result", result);
                       ("id", request_id)]), w')) \/
      (exists message,
          Query.process_request (JDict request) w =
          (inr (JDict [("jsonrpc", JStr "2.0");
                       ("error", JDict [("code", JInt (-32603));
                                        ("message", JStr message)]);
                       ("id", request_id)]), w'))) /\
  (exists ww',
      (exists result,
          Weather.process_request (JDict request) ww =
          (inr (JDict [("jsonrpc", JStr "2.0");
                       ("result", result);
                       ("id", request_id)]), ww')) \/
      (exists message,
          Weather.process_request (JDict request) ww =
          (inr (JDict [("jsonrpc", JStr "2.0");
                       ("error", JDict [("code", JInt (-32603));
                                        ("message", JStr message)]);
                       ("id", request_id)]), ww'))) /\
  (forall inbound,
      In inbound [JNull; JInt 0; JStr "abc"] ->
      (exists result,
          Query.process_request
            (JDict [("method", JStr "tools/list"); ("id", inbound)]) w
          = (inr (JDict [("jsonrpc", JStr "2.0");
                         ("result", result);
                         ("id", inbound)]), w)) /\
      Query.process_request
        (JDict [("method", JStr "no/such"); ("id", inbound)]) w
      = (inr (JDict [("jsonrpc", JStr "2.0");
                     ("error",
                      JDict [("code", JInt (-32603));
                             ("message", JStr "Unknown method: no/such")]);
                     ("id", inbound)]), w) /\
      (exists result,
          Weather.process_request
            (JDict [("method", JStr "tools/list"); ("id", inbound)]) ww
          = (inr (JDict [("jsonrpc", JStr "2.0");
                         ("result", result);
                         ("id", inbound)]), ww)) /\
      Weather.process_request
        (JDict [("method", JStr "no/such"); ("id", inbound)]) ww
      = (inr (JDict [("jsonrpc", JStr "2.0");
                     ("error",
                      JDict [("code", JInt (-32603));
                             ("message", JStr "Unknown method: no/such")]);
                     ("id", inbound)]), ww)) /\
  (exists result,
      Query.process_request (JDict [("method", JStr "tools/list")]) w
      = (inr (JDict [("jsonrpc", JStr "2.0");
                     ("result", result);
                     ("id", JNull)]), w)) /\
  Weather.process_request (JDict [("method", JStr "no/such")]) ww
  = (inr (JDict [("jsonrpc", JStr "2.0");
                 ("error",
                  JDict [("code", JInt (-32603));
                         ("message", JStr "Unknown method: no/such")]);
                 ("id", JNull)]), ww).
Proof.
  intros request_id. split; [| split; [| split; [| split]]].
  - subst request_id.
    unfold Query.process_request, bind, lift, try_except, ret.
    rewrite !ProtocolFacts.get_dict. unfold or_default.
    match goal with
    | |- context [match ?route w with _ => _ end] =>
        destruct (route w) as [[e | result] w']
    end; exists w'; [right | left]; eexists; reflexivity.
  - subst request_id.
    unfold Weather.process_request, bind, lift, try_except, ret.
    rewrite !ProtocolFacts.get_dict. unfold or_default.
    match goal with
    | |- context [match ?route ww with _ => _ end] =>
        destruct (route ww) as [[e | result] ww']
    end; exists ww'; [right | left]; eexists; reflexivity.
  - intros inbound _.
    split; [eexists; reflexivity |].
    split; [reflexivity |].
    split; [eexists; reflexivity | reflexivity].
  - eexists. reflexivity.
  - reflexivity.
Qed.

(** ** The weather tool *)

(** C8 (as amended).  A [tools/call] to [get_weather_forecast] with a
    location sends the weather agent the event
    [{"prompt": "Get weather forecast for <location>"}] and answers with
    the agent's reply, unmodified, as the value of "response" in the result
    object [{"response": <reply>}]. *)
Theorem weather_reply_passed_through
  `{RT : Runtime} `{Agent : Weather.WeatherAgent}
  (request params arguments : list (string * json)) (location reply : json)
  (w w' : Weather.World) :
  tools_call request params (JStr "get_weather_forecast") ->
  lookup "arguments" params = Some (JDict arguments) ->
  lookup "location" arguments = Some location ->
  Weather.weather_handler
    (JDict [("prompt", JStr ("Get weather forecast for " ++ py_str location))])
    w = (inr reply, w') ->
  Weather.process_request (JDict request) w =
  (inr (JDict [("jsonrpc", JStr "2.0");
               ("result", JDict [("response", reply)]);
               ("id", match lookup "id" request with
                      | Some request_id => request_id
                      | None => JNull
                      end)]), w').
Proof.
  intros Hcall Harguments Hlocation Hagent.
  rewrite (WeatherFacts.weather_process_tools_call w Hcall).
  destruct Hcall as (_ & _ & Hname).
  rewrite (WeatherFacts.forecast_call params w Hname).
  unfold Weather._handle_weather_request, bind, lift, ret.
  cbn [subscript]. rewrite Harguments. cbn [subscript]. rewrite Hlocation.
  unfold Weather.forecast_event. rewrite Hagent. reflexivity.
Qed.

Lemma weather_reply_passed_through_witness :
  let request :=
    Demo.call_request "get_weather_forecast" [("location", JStr "Pune")]
                      (JInt 1) in
  @Weather.process_request Demo.runtime Demo.forecaster (JDict request) [] =
  (inr (rpc_result (JDict [("response", JStr "Sunny, 31 C")]) (JInt 1)),
   [JDict [("prompt", JStr "Get weather forecast for Pune")]]).
Proof.
  apply (@weather_reply_passed_through Demo.runtime Demo.forecaster
           (Demo.call_request "get_weather_forecast"
                              [("location", JStr "Pune")] (JInt 1))
           [("name", JStr "get_weather_forecast");
            ("arguments", JDict [("location", JStr "Pune")])]
           [("location", JStr "Pune")] (JStr "Pune") (JStr "Sunny, 31 C")
           [] [JDict [("prompt", JStr "Get weather forecast for Pune")]]).
  - repeat split; reflexivity.
  - reflexivity.
  - reflexivity.
  - reflexivity.
Defined.

(** C8, the claim as the specification words it, fails: the result of the
    weather tool for "Pune" is [{"response": "Sunny, 31 C"}], which neither
    is a Content Block [{type: "text", text: ...}] nor carries one under
    "content". *)
Lemma weather_result_not_content_block :
  let request :=
    Demo.call_request "get_weather_forecast" [("location", JStr "Pune")]
                      (JInt 1) in
  let result := JDict [("response", JStr "Sunny, 31 C")] in
  fst (@Weather.process_request Demo.runtime Demo.forecaster
         (JDict request) [])
  = inr (rpc_result result (JInt 1)) /\
  is_content_block result = false /\
  carries_content_blocks result = false /\
  ~ (exists text,
        fst (@Weather.process_request Demo.runtime Demo.forecaster
               (JDict request) [])
        = inr (rpc_result (text_block text) (JInt 1))).
Proof.
  cbv zeta. repeat split.
  intros (text & Hanswer). vm_compute in Hanswer. discriminate.
Qed.

(** C9.  In the weather dispatcher a [tools/call] to
    [get_weather_forecast] whose parameters have no "arguments", or whose
    arguments have no "location", raises [KeyError]; the dispatcher answers
    with the protocol error object, code -32603, whose message is the
    quoted missing key.  The answer is no success envelope, so no [isError]
    result, and the weather agent is not called. *)
Theorem missing_location_protocol_error
  `{RT : Runtime} `{Agent : Weather.WeatherAgent}
  (request params : list (string * json)) (w : Weather.World) :
  tools_call request params (JStr "get_weather_forecast") ->
  (lookup "arguments" params = None ->
   Weather.process_request (JDict request) w =
   (inr (JDict [("jsonrpc", JStr "2.0");
                ("error", JDict [("code", JInt (-32603));
                                 ("message", JStr "'arguments'")]);
                ("id", id_of request)]), w)) /\
  (forall arguments,
      lookup "arguments" params = Some (JDict arguments) ->
      lookup "location" arguments = None ->
      Weather.process_request (JDict request) w =
      (inr (JDict [("jsonrpc", JStr "2.0");
                   ("error", JDict [("code", JInt (-32603));
                                    ("message", JStr "'location'")]);
                   ("id", id_of request)]), w)) /\
  (forall message,
      is_protocol_error (rpc_error message (id_of request)) = true /\
      is_success_envelope (rpc_error message (id_of request)) = false).
Proof.
  intros Hcall. rewrite (WeatherFacts.weather_process_tools_call w Hcall).
  destruct Hcall as (_ & _ & Hname).
  rewrite (WeatherFacts.forecast_call params w Hname).
  unfold Weather._handle_weather_request, bind, lift, ret.
  cbn [subscript]. split; [| split].
  - intros Hmissing. rewrite Hmissing. reflexivity.
  - intros arguments Harguments Hmissing.
    rewrite Harguments. cbn [subscript]. rewrite Hmissing. reflexivity.
  - intros message. split; reflexivity.
Qed.

Lemma missing_location_protocol_error_witness :
  @Weather.process_request Demo.runtime Demo.forecaster
    (JDict [("jsonrpc", JStr "2.0"); ("method", JStr "tools/call");
            ("params", JDict [("name", JStr "get_weather_forecast")]);
            ("id", JInt 3)]) [JNull]
  = (inr (rpc_error "'arguments'" (JInt 3)), [JNull]) /\
  @Weather.process_request Demo.runtime Demo.forecaster
    (JDict (Demo.call_request "get_weather_forecast" [("city", JStr "Pune")]
                              (JInt 4))) []
  = (inr (rpc_error "'location'" (JInt 4)), []).
Proof.
  split.
  - apply (@missing_location_protocol_error Demo.runtime Demo.forecaster
             [("jsonrpc", JStr "2.0"); ("method", JStr "tools/call");
              ("params", JDict [("name", JStr "get_weather_forecast")]);
              ("id", JInt 3)]
             [("name", JStr "get_weather_forecast")] [JNull]).
    + repeat split; reflexivity.
    + reflexivity.
  - apply (@missing_location_protocol_error Demo.runtime Demo.forecaster
             (Demo.call_request "get_weather_forecast"
                                [("city", JStr "Pune")] (JInt 4))
             [("name", JStr "get_weather_forecast");
              ("arguments", JDict [("city", JStr "Pune")])] [])
      with (arguments := [("city", JStr "Pune")]).
    + repeat split; reflexivity.
    + reflexivity.
    + reflexivity.
Defined.

(* ================================================================== *)
(** * Further properties of the code                                   *)
(* ================================================================== *)

(** ** Substring search and lowercasing *)

Module StringFacts.

Import Letters.

Lemma prefix_append (needle rest : string) :
  String.prefix needle (needle ++ rest) = true.
Proof.
  induction needle as [| c needle IH]; cbn.
  - destruct rest; reflexivity.
  - destruct (ascii_dec c c) as [_ | Hneq]; [exact IH | contradiction].
Qed.

Lemma contains_prefix (needle haystack : string) :
  String.prefix needle haystack = true -> contains needle haystack = true.
Proof. intros H. destruct haystack; cbn in *; rewrite H; reflexivity. Qed.

Lemma contains_skip (needle before haystack : string) :
  contains needle haystack = true ->
  contains needle (before ++ haystack) = true.
Proof.
  intros H. induction before as [| c before IH]; cbn.
  - exact H.
  - rewrite IH. apply orb_true_r.
Qed.

(** An occurrence anywhere is found. *)
Lemma contains_occurrence (needle before after : string) :
  contains needle (before ++ needle ++ after) = true.
Proof. apply contains_skip, contains_prefix, prefix_append. Qed.

Lemma lower_append (a b : string) : lower (a ++ b) = lower a ++ lower b.
Proof.
  induction a as [| c a IH]; cbn; [reflexivity | now rewrite IH].
Qed.

Lemma lower_ascii_cases (c : ascii) :
  (is_upper c = false /\ lower_ascii c = c) \/
  (is_upper c = true /\ is_lower (lower_ascii c) = true).
Proof.
  destruct c as [[] [] [] [] [] [] [] []]; vm_compute; auto.
Qed.

Lemma lower_ascii_idempotent (c : ascii) :
  lower_ascii (lower_ascii c) = lower_ascii c.
Proof.
  destruct c as [[] [] [] [] [] [] [] []]; vm_compute; reflexivity.
Qed.

Lemma lower_idempotent (s : string) : lower (lower s) = lower s.
Proof.
  induction s as [| c s IH]; cbn;
    [reflexivity | now rewrite IH, lower_ascii_idempotent].
Qed.

Lemma prefix_lower (needle s : string) :
  caseless needle = true ->
  String.prefix needle (lower s) = String.prefix needle s.
Proof.
  revert s. induction needle as [| d needle IH]; intros s Hcaseless.
  - destruct s; reflexivity.
  - cbn in Hcaseless.
    apply andb_true_iff in Hcaseless as [Hd Hrest].
    apply andb_true_iff in Hd as [Hup Hlow].
    apply negb_true_iff in Hup, Hlow.
    destruct s as [| c s]; [reflexivity |]. cbn.
    destruct (lower_ascii_cases c) as [[_ Hsame] | [Hcup Hclow]].
    + rewrite Hsame. destruct (ascii_dec d c); [apply IH; exact Hrest | reflexivity].
    + destruct (ascii_dec d (lower_ascii c)) as [Heq | _];
        [subst d; congruence |].
      destruct (ascii_dec d c) as [Heq | _]; [subst d; congruence |].
      reflexivity.
Qed.

(** Searching for a letterless string ignores the case of the text. *)
Lemma contains_lower (needle s : string) :
  caseless needle = true -> contains needle (lower s) = contains needle s.
Proof.
  intros Hcaseless. induction s as [| c s IH].
  - reflexivity.
  - change (contains needle (lower (String c s)))
      with (String.prefix needle (lower (String c s))
            || contains needle (lower s)).
    rewrite prefix_lower by exact Hcaseless. rewrite IH. reflexivity.
Qed.

End StringFacts.

(** ** More about the classifier *)

Module ClassifierFacts.

Import Query Classifier StringFacts.

(** The provider calls of a prompt, spelled out. *)
Lemma calls_rule_table (text : string) :
  calls text =
  match
    ((if any_in revenue_keywords (lower text)
      then [RevenueQuery JNull] else [])
     ++ (if any_in product_keywords (lower text)
         then [ProductQuery JNull JNull] else [])
     ++ (if any_in customer_keywords (lower text)
         then [CustomerQuery JNull (min_amount_filter text (lower text))]
         else []))%list
  with
  | [] => [RevenueQuery JNull; ProductQuery JNull JNull]
  | selected => selected
  end.
Proof.
  unfold calls, analyze_business_request.
  destruct (any_in revenue_keywords (lower text));
    destruct (any_in product_keywords (lower text));
    destruct (any_in customer_keywords (lower text)); reflexivity.
Qed.

Lemma min_amount_filter_lower (t1 t2 : string) :
  lower t1 = lower t2 ->
  min_amount_filter t1 (lower t1) = min_amount_filter t2 (lower t2).
Proof.
  intros Hsame. unfold min_amount_filter.
  rewrite <- (contains_lower "$" t1), <- (contains_lower "200" t1),
          <- (contains_lower "500" t1) by reflexivity.
  rewrite <- (contains_lower "$" t2), <- (contains_lower "200" t2),
          <- (contains_lower "500" t2) by reflexivity.
  rewrite Hsame. reflexivity.
Qed.

Lemma any_in_occurrence (words : list string) (word before after : string) :
  In word words -> any_in words (before ++ word ++ after) = true.
Proof.
  intros Hin. unfold any_in. apply existsb_exists.
  exists word. split; [exact Hin | apply contains_occurrence].
Qed.

Lemma run_calls_length `{Ext : Collaborators} (cs : list provider_call) :
  forall outputs (w w' : World),
    run_calls cs w = (inr outputs, w') -> length outputs = length cs.
Proof.
  induction cs as [| c cs IH]; intros outputs w w' Hrun; cbn in Hrun.
  - inversion Hrun. reflexivity.
  - unfold bind, ret in Hrun.
    destruct (run_call c w) as [[e | rows] w1]; [discriminate |].
    destruct (run_calls cs w1) as [[e | more] w2] eqn:Hrest; [discriminate |].
    inversion Hrun; subst. cbn. f_equal. exact (IH _ _ _ Hrest).
Qed.

Lemma map_fst_combine {A B} (keys : list A) (values : list B) :
  length values = length keys -> map fst (combine keys values) = keys.
Proof.
  revert values. induction keys as [| k keys IH]; intros [| v values] Hlen;
    cbn in *; try discriminate; [reflexivity |].
  f_equal. apply IH. now inversion Hlen.
Qed.

End ClassifierFacts.

(** X1.  Classification ignores letter case altogether: two prompts that
    differ only in the case of their letters cause the same provider
    calls, with the same arguments. *)
Theorem classification_ignores_case (t1 t2 : string) :
  lower t1 = lower t2 -> Classifier.calls t1 = Classifier.calls t2.
Proof.
  intros Hsame. rewrite !ClassifierFacts.calls_rule_table.
  rewrite (ClassifierFacts.min_amount_filter_lower t1 t2 Hsame), Hsame.
  reflexivity.
Qed.

Lemma classification_ignores_case_witness :
  Classifier.calls "VIP Orders Over $500"
  = Classifier.calls "vip orders OVER $500".
Proof.
  apply (classification_ignores_case "VIP Orders Over $500"
                                     "vip orders OVER $500").
  reflexivity.
Defined.

(** X2.  Keywords are matched as substrings: a prompt in which a keyword
    of a category occurs anywhere, in any letter case, even inside a longer
    word, selects that category. *)
Theorem keyword_anywhere_selects
  (c : Classifier.category) (keyword before occurrence after : string) :
  In keyword (Classifier.keywords c) ->
  lower occurrence = keyword ->
  In c (Classifier.classify (before ++ occurrence ++ after)).
Proof.
  intros Hkeyword Hlower.
  assert (Hfound : any_in (Classifier.keywords c)
                          (lower (before ++ occurrence ++ after)) = true).
  { rewrite !StringFacts.lower_append, Hlower.
    apply ClassifierFacts.any_in_occurrence. exact Hkeyword. }
  rewrite QueryFacts.classify_rule_table.
  assert (Hin : In c (filter (fun c => any_in (Classifier.keywords c)
                                (lower (before ++ occurrence ++ after)))
                        [Classifier.revenue; Classifier.product;
                         Classifier.customer])).
  { apply filter_In. split; [| exact Hfound].
    destruct c; cbn; auto. }
  destruct (filter _ _) as [| x xs]; [contradiction | exact Hin].
Qed.

Lemma keyword_anywhere_selects_witness :
  In Classifier.customer
     (Classifier.classify ("list the dis" ++ "ORDER" ++ "ly accounts")).
Proof.
  apply (@keyword_anywhere_selects Classifier.customer "order"
           "list the dis" "ORDER" "ly accounts").
  - cbn. auto.
  - reflexivity.
Defined.

(** X3.  The amount heuristic never passes the customer query anything
    but [None], 200 or 500 as its minimum amount (and never a start date):
    a customer query is made only for a prompt that selects the customer
    category; its amount is 200 exactly when the prompt holds "$" or, in
    any case, "over", and holds "200"; 500 exactly when it qualifies the
    same way, holds "500" and does not hold "200"; [None] otherwise. *)
Theorem min_amount_only_200_or_500
  (text : string) (start_date amount : json) :
  In (Classifier.CustomerQuery start_date amount) (Classifier.calls text) ->
  any_in Query.customer_keywords (lower text) = true /\
  start_date = JNull /\
  ((amount = JInt 200 /\
    contains "$" text || contains "over" (lower text) = true /\
    contains "200" text = true) \/
   (amount = JInt 500 /\
    contains "$" text || contains "over" (lower text) = true /\
    contains "200" text = false /\ contains "500" text = true) \/
   (amount = JNull /\
    (contains "$" text || contains "over" (lower text) = false \/
     (contains "200" text = false /\ contains "500" text = false)))).
Proof.
  rewrite ClassifierFacts.calls_rule_table.
  unfold Query.min_amount_filter.
  destruct (any_in Query.revenue_keywords (lower text));
    destruct (any_in Query.product_keywords (lower text));
    destruct (any_in Query.customer_keywords (lower text));
    destruct (contains "$" text || contains "over" (lower text));
    destruct (contains "200" text);
    destruct (contains "500" text);
    cbn; intros Hin;
    repeat match goal with
           | H : _ \/ _ |- _ => destruct H
           | H : False |- _ => destruct H
           | H : _ = Classifier.CustomerQuery _ _ |- _ =>
               inversion H; subst; clear H
           end;
    (split; [reflexivity | split; [reflexivity |]]); tauto.
Qed.

Lemma min_amount_only_200_or_500_witness :
  In (Classifier.CustomerQuery JNull (JInt 500))
     (Classifier.calls "orders over 1500 dollars") /\
  contains "200" "orders over 1500 dollars" = false /\
  contains "500" "orders over 1500 dollars" = true.
Proof.
  assert (Hin : In (Classifier.CustomerQuery JNull (JInt 500))
                   (Classifier.calls "orders over 1500 dollars"))
    by (left; reflexivity).
  split; [exact Hin |].
  destruct (@min_amount_only_200_or_500 "orders over 1500 dollars"
              JNull (JInt 500) Hin)
    as (_ & _ & [(Hamount & _) | [(_ & _ & Hno200 & H500) | (Hamount & _)]]).
  - discriminate Hamount.
  - split; assumption.
  - discriminate Hamount.
Defined.

(** X4.  Whenever [analyze_business_request] returns, the result echoes
    the prompt and its [data] holds exactly one entry per executed query,
    keyed "revenue", "products", "customers" in the order of
    [queries_executed]. *)
Theorem data_keyed_by_category
  `{Ext : Query.Collaborators}
  (text : string) (results : Query.query_results) (w w' : Query.World) :
  Query.analyze_business_request (JStr text) w = (inr results, w') ->
  Query.request results = JStr text /\
  map fst (Query.data results)
  = map Classifier.data_key (Classifier.classify text) /\
  length (Query.data results) = length (Query.queries_executed results).
Proof.
  intros Hrun. rewrite QueryFacts.analyze_runs_calls in Hrun.
  destruct (Classifier.run_calls (Classifier.calls text) w)
    as [[e | outputs] w1] eqn:Hcalls; [discriminate |].
  inversion Hrun; subst results w1.
  apply ClassifierFacts.run_calls_length in Hcalls.
  assert (Hkeys : map fst (Query.data (Classifier.aggregated text outputs))
                  = map Classifier.data_key (Classifier.classify text)).
  { cbn. apply ClassifierFacts.map_fst_combine.
    rewrite Hcalls. unfold Classifier.classify.
    now rewrite !length_map. }
  split; [reflexivity | split; [exact Hkeys |]].
  rewrite <- (length_map fst), Hkeys. cbn. now rewrite !length_map.
Qed.

Lemma data_keyed_by_category_witness :
  let results :=
    {| Query.request := JStr "vip customer revenue";
       Query.queries_executed := ["revenue_summary"; "customer_orders"];
       Query.data :=
         [("revenue",
           JDict [("total_revenue", JInt 4200); ("total_orders", JInt 17)]);
          ("customers",
           JDict [("total_orders_analyzed", JInt 3);
                  ("min_amount", JNull)])] |} in
  map fst (Query.data results) = ["revenue"; "customers"].
Proof.
  cbv zeta.
  destruct (@data_keyed_by_category Demo.shop "vip customer revenue"
              {| Query.request := JStr "vip customer revenue";
                 Query.queries_executed :=
                   ["revenue_summary"; "customer_orders"];
                 Query.data :=
                   [("revenue",
                     JDict [("total_revenue", JInt 4200);
                            ("total_orders", JInt 17)]);
                    ("customers",
                     JDict [("total_orders_analyzed", JInt 3);
                            ("min_amount", JNull)])] |}
              0%nat 2%nat eq_refl) as (_ & Hkeys & _).
  exact Hkeys.
Defined.

(** ** More about the dispatchers *)

Module DispatchFacts.

Import Protocol ProtocolFacts.




End DispatchFacts.

(** X5.  A method other than [initialize], [tools/list] and [tools/call],
    a missing method included, makes either dispatcher answer with the
    protocol error object, code -32603, message "Unknown method: <method>",
    under the request's id; nothing else happens. *)
Theorem unknown_method_protocol_error
  `{RT : Runtime} `{Ext : Query.Collaborators} `{Agent : Weather.WeatherAgent}
  (request : list (string * json)) (method : json)
  (w : Query.World) (ww : Weather.World) :
  or_default JNull (lookup "method" request) = method ->
  eq_str method "initialize" = false ->
  eq_str method "tools/list" = false ->
  eq_str method "tools/call" = false ->
  Query.process_request (JDict request) w =
  (inr (JDict [("jsonrpc", JStr "2.0");
               ("error",
                JDict [("code", JInt (-32603));
                       ("message", JStr ("Unknown method: " ++ py_str method))]);
               ("id", id_of request)]), w) /\
  Weather.process_request (JDict request) ww =
  (inr (JDict [("jsonrpc", JStr "2.0");
               ("error",
                JDict [("code", JInt (-32603));
                       ("message", JStr ("Unknown method: " ++ py_str method))]);
               ("id", id_of request)]), ww).
Proof.
  intros Hmethod H1 H2 H3. split.
  - unfold Query.process_request, bind, lift, try_except, ret, raise.
    rewrite !ProtocolFacts.get_dict, Hmethod, H1, H2, H3. reflexivity.
  - unfold Weather.process_request, bind, lift, try_except, ret, raise.
    rewrite !ProtocolFacts.get_dict, Hmethod, H1, H2, H3. reflexivity.
Qed.

Lemma unknown_method_protocol_error_witness :
  @Query.process_request Demo.runtime Demo.shop
    (JDict [("jsonrpc", JStr "2.0"); ("id", JInt 9)]) 0%nat
  = (inr (rpc_error "Unknown method: None" (JInt 9)), 0%nat) /\
  @Weather.process_request Demo.runtime Demo.forecaster
    (JDict [("jsonrpc", JStr "2.0"); ("id", JInt 9)]) []
  = (inr (rpc_error "Unknown method: None" (JInt 9)), []).
Proof.
  apply (@unknown_method_protocol_error Demo.runtime Demo.shop Demo.forecaster
           [("jsonrpc", JStr "2.0"); ("id", JInt 9)] JNull 0%nat []);
    reflexivity.
Defined.













(** ** The Lambda entry points *)

Module HandlerFacts.

Import Protocol ProtocolFacts.


End HandlerFacts.


(** X14.  When the body cannot be read (the event is no object, or its
    "body" string is not JSON) the business-data Lambda still answers with
    status 200: the body is the protocol error object with message
    "Internal error: <failure>" and a null id. *)
Theorem unreadable_body_internal_error
  `{RT : Runtime} `{Ext : Query.Collaborators}
  (event : json) (e : exn) (w : Query.World) :
  parse_body event = inl e ->
  Query.handler event w
  = (inr (JDict
            [("statusCode", JInt 200);
             ("headers", Query.cors_headers);
             ("body",
              JStr (json_dumps
                      (JDict [("jsonrpc", JStr "2.0");
                              ("error",
                               JDict [("code", JInt (-32603));
                                      ("message",
                                       JStr ("Internal error: " ++ str_exn e))]);
                              ("id", JNull)])))]), w).
Proof.
  intros Hbody. unfold Query.handler, bind, lift, try_except, ret.
  rewrite Hbody. reflexivity.
Qed.

Lemma unreadable_body_internal_error_witness :
  exists body,
    @Query.handler Demo.runtime Demo.shop
      (JDict [("body", JStr "{not json")]) 0%nat
    = (inr (JDict [("statusCode", JInt 200);
                   ("headers", Query.cors_headers);
                   ("body", JStr body)]), 0%nat).
Proof.
  eexists.
  apply (@unreadable_body_internal_error Demo.runtime Demo.shop
           (JDict [("body", JStr "{not json")])
           (ValueError "Expecting value") 0%nat).
  reflexivity.
Defined.

(** X15.  On the legacy entry point a Data Provider failure is a transport
    failure: [agentic_handler] answers status 500 with the failure text and
    a timestamp, where the MCP path answers status 200 with an [isError]
    result. *)
Theorem legacy_provider_failure_500
  `{RT : Runtime} `{Ext : Query.Collaborators}
  (event : list (string * json)) (text : string) (e : exn)
  (w w' : Query.World) :
  or_default (JStr Query.default_prompt) (lookup "prompt" event) = JStr text ->
  Classifier.run_calls (Classifier.calls text) w = (inl e, w') ->
  Query.agentic_handler (JDict event) w
  = (inr (JDict
            [("statusCode", JInt 500);
             ("headers", Query.cors_headers);
             ("body",
              JStr (json_dumps
                      (JDict [("error", JStr (str_exn e));
                              ("timestamp",
                               JStr (Query.utcnow_isoformat w'))])))]), w').
Proof.
  intros Hprompt Hfail.
  unfold Query.agentic_handler, bind, lift, try_except, ret.
  rewrite ProtocolFacts.get_dict, Hprompt.
  rewrite QueryFacts.analyze_runs_calls, Hfail. reflexivity.
Qed.

Lemma legacy_provider_failure_500_witness :
  @Query.agentic_handler Demo.runtime Demo.shop
    (JDict [("prompt", JStr "inventory")]) 0%nat
  = (inr (JDict
            [("statusCode", JInt 500);
             ("headers", Query.cors_headers);
             ("body",
              JStr (Demo.show
                      (JDict [("error",
                               JStr "Database connection failed: timeout expired");
                              ("timestamp", JStr "2025-01-01T00:00:00")])))]),
     1%nat).
Proof.
  apply (@legacy_provider_failure_500 Demo.runtime Demo.shop
           [("prompt", JStr "inventory")] "inventory"
           (Exception "Database connection failed: timeout expired")
           0%nat 1%nat); reflexivity.
Defined.

(** X16.  When every Data Provider call answers, [agentic_handler] answers
    status 200 even if narration fails, and its body reports the executed
    query names in classifier order and, as "data_points", how many there
    are. *)
Theorem legacy_success_reports_queries
  `{RT : Runtime} `{Ext : Query.Collaborators}
  (event : list (string * json)) (text : string) (outputs : list json)
  (w w1 : Query.World) :
  or_default (JStr Query.default_prompt) (lookup "prompt" event) = JStr text ->
  Classifier.run_calls (Classifier.calls text) w = (inr outputs, w1) ->
  exists insights w2,
    Query.generate_business_insights (Classifier.aggregated text outputs)
                                     (JStr text) w1 = (inr insights, w2) /\
    Query.agentic_handler (JDict event) w
    = (inr (JDict
              [("statusCode", JInt 200);
               ("headers", Query.cors_headers);
               ("body",
                JStr (json_dumps
                        (JDict
                           [("response", JStr insights);
                            ("queries_executed",
                             JList (map JStr
                                      (map Classifier.query_name
                                           (Classifier.classify text))));
                            ("timestamp", JStr (Query.utcnow_isoformat w2));
                            ("data_points",
                             JInt (Z.of_nat
                                     (length (Classifier.classify text))))])))]),
       w2).
Proof.
  intros Hprompt Hrun.
  destruct (Query.generate_business_insights
              (Classifier.aggregated text outputs) (JStr text) w1)
    as [[e | insights] w2] eqn:Hgen.
  { rewrite QueryFacts.generate_business_insights_run in Hgen.
    destruct (Query.insights_attempt _ _ w1) as [[? | ?] ?]; discriminate. }
  exists insights, w2. split; [reflexivity |].
  unfold Query.agentic_handler, bind, lift, try_except, ret.
  rewrite ProtocolFacts.get_dict, Hprompt.
  rewrite (QueryFacts.analyze_returns text w Hrun), Hgen.
  cbn [Classifier.aggregated Query.queries_executed Query.data].
  apply ClassifierFacts.run_calls_length in Hrun.
  rewrite length_combine, Hrun. unfold Classifier.classify.
  rewrite !length_map, Nat.min_id. reflexivity.
Qed.

Lemma legacy_success_reports_queries_witness :
  exists insights,
    @Query.agentic_handler Demo.runtime Demo.shop (JDict []) 0%nat
    = (inr (JDict
              [("statusCode", JInt 200);
               ("headers", Query.cors_headers);
               ("body",
                JStr (Demo.show
                        (JDict
                           [("response", JStr insights);
                            ("queries_executed",
                             JList [JStr "revenue_summary"]);
                            ("timestamp", JStr "2025-01-01T00:00:00");
                            ("data_points", JInt 1)])))]), 1%nat).
Proof.
  destruct (@legacy_success_reports_queries Demo.runtime Demo.shop
              [] "Show me a business performance summary"
              [JDict [("total_revenue", JInt 4200); ("total_orders", JInt 17)]]
              0%nat 1%nat eq_refl eq_refl)
    as (insights & w2 & Hgen & Hrun).
  exists insights.
  assert (Hw2 : w2 = 1%nat) by (vm_compute in Hgen; congruence).
  subst w2. exact Hrun.
Defined.



(** ** More about the weather server *)

(** X18.  A failure of the weather agent is not a tool-level error: the
    weather dispatcher answers with the protocol error object, code
    -32603, carrying the agent's failure text and the request's id. *)
Theorem weather_agent_failure_protocol_error
  `{RT : Runtime} `{Agent : Weather.WeatherAgent}
  (request params arguments : list (string * json)) (location : json)
  (e : exn) (w w' : Weather.World) :
  tools_call request params (JStr "get_weather_forecast") ->
  lookup "arguments" params = Some (JDict arguments) ->
  lookup "location" arguments = Some location ->
  Weather.weather_handler
    (JDict [("prompt", JStr ("Get weather forecast for " ++ py_str location))])
    w = (inl e, w') ->
  Weather.process_request (JDict request) w =
  (inr (JDict [("jsonrpc", JStr "2.0");
               ("error", JDict [("code", JInt (-32603));
                                ("message", JStr (str_exn e))]);
               ("id", id_of request)]), w').
Proof.
  intros Hcall Harguments Hlocation Hagent.
  rewrite (WeatherFacts.weather_process_tools_call w Hcall).
  destruct Hcall as (_ & _ & Hname).
  rewrite (WeatherFacts.forecast_call params w Hname).
  unfold Weather._handle_weather_request, bind, lift, ret.
  cbn [subscript]. rewrite Harguments. cbn [subscript]. rewrite Hlocation.
  unfold Weather.forecast_event. rewrite Hagent. reflexivity.
Qed.

Lemma weather_agent_failure_protocol_error_witness :
  @Weather.process_request Demo.runtime Demo2.offline
    (JDict (Demo.call_request "get_weather_forecast"
                              [("location", JInt 411001)] (JInt 1))) 0%nat
  = (inr (rpc_error "upstream timeout: Get weather forecast for 411001"
                    (JInt 1)), 1%nat).
Proof.
  apply (@weather_agent_failure_protocol_error Demo.runtime Demo2.offline
           (Demo.call_request "get_weather_forecast"
                              [("location", JInt 411001)] (JInt 1))
           [("name", JStr "get_weather_forecast");
            ("arguments", JDict [("location", JInt 411001)])]
           [("location", JInt 411001)] (JInt 411001)
           (Exception "upstream timeout: Get weather forecast for 411001")
           0%nat 1%nat).
  - repeat split; reflexivity.
  - reflexivity.
  - reflexivity.
  - reflexivity.
Defined.



(** ** The data provider *)

Module DatabaseFacts.

Import Database.

Section Generic.
Context `{B : Backend}.

Lemma is_set_value (w : World) (var : string) :
  is_set w var = true ->
  exists value, getenv w var = Some value /\ value <> "".
Proof.
  unfold is_set. destruct (getenv w var) as [[| c s] |]; try discriminate.
  intros _. exists (String c s). split; [reflexivity | discriminate].
Qed.

(** Reading the credentials changes nothing. *)
Lemma credentials_keep_world (w w' : World) (r : exn + json) :
  get_database_credentials w = (r, w') -> w' = w.
Proof.
  unfold get_database_credentials.
  destruct (filter _ required_vars).
  - unfold bind, lift, ret.
    repeat match goal with
           | |- context [environ_item ?w ?v] => destruct (environ_item w v)
           end; intros H; inversion H; reflexivity.
  - intros H; inversion H; reflexivity.
Qed.



End Generic.

End DatabaseFacts.

(** X20.  [get_database_credentials] succeeds exactly when all five
    variables DB_HOST, DB_PORT, DB_NAME, DB_USER and DB_PASSWORD are set
    and non-empty; the credentials then carry their values, so the port is
    always the value of DB_PORT and the fallback "5432" is never used. *)
Theorem credentials_need_all_five `{B : Database.Backend}
        (w : Database.World) :
  forallb (Database.is_set w) Database.required_vars = true <->
  exists host port database user password,
    Database.getenv w "DB_HOST" = Some host /\
    Database.getenv w "DB_PORT" = Some port /\
    Database.getenv w "DB_NAME" = Some database /\
    Database.getenv w "DB_USER" = Some user /\
    Database.getenv w "DB_PASSWORD" = Some password /\
    Database.get_database_credentials w
    = (inr (JDict [("host", JStr host);
                   ("database", JStr database);
                   ("user", JStr user);
                   ("password", JStr password);
                   ("port", JStr port)]), w).
Proof.
  unfold Database.get_database_credentials, Database.environ_item,
    bind, lift, ret.
  cbn [forallb filter Database.required_vars]. unfold Database.is_set.
  split.
  - destruct (Database.getenv w "DB_HOST") as [[| ? ?] |];
      destruct (Database.getenv w "DB_PORT") as [[| ? ?] |];
      destruct (Database.getenv w "DB_NAME") as [[| ? ?] |];
      destruct (Database.getenv w "DB_USER") as [[| ? ?] |];
      destruct (Database.getenv w "DB_PASSWORD") as [[| ? ?] |];
      cbn; intros Hall; try discriminate Hall.
    do 5 eexists. repeat split.
  - intros (host & port & database & user & password
            & Hh & Hp & Hd & Hu & Hpw & Hrun).
    rewrite Hh, Hp, Hd, Hu, Hpw in *.
    destruct host, port, database, user, password; cbn in *;
      try discriminate Hrun; reflexivity.
Qed.

(** X21.  When credentials are incomplete, [get_database_credentials]
    raises "Missing required environment variables: " followed by exactly
    the unset or empty variables, in the order DB_HOST, DB_PORT, DB_NAME,
    DB_USER, DB_PASSWORD, separated by ", "; it raises nothing else. *)
Theorem missing_credentials_are_listed `{B : Database.Backend}
        (w w' : Database.World) (e : exn) :
  Database.get_database_credentials w = (inl e, w') ->
  let missing :=
    filter (fun var => negb (Database.is_set w var)) Database.required_vars in
  w' = w /\ missing <> [] /\
  e = Exception ("Missing required environment variables: "
                 ++ String.concat ", " missing).
Proof.
  unfold Database.get_database_credentials, Database.environ_item,
    bind, lift, ret.
  cbn [filter Database.required_vars]. unfold Database.is_set.
  destruct (Database.getenv w "DB_HOST") as [[| ? ?] |];
    destruct (Database.getenv w "DB_PORT") as [[| ? ?] |];
    destruct (Database.getenv w "DB_NAME") as [[| ? ?] |];
    destruct (Database.getenv w "DB_USER") as [[| ? ?] |];
    destruct (Database.getenv w "DB_PASSWORD") as [[| ? ?] |];
    cbn; intros Hrun; inversion Hrun; subst;
    repeat split; discriminate.
Qed.

Lemma missing_credentials_are_listed_witness :
  @Database.get_database_credentials
    (Database.office [("DB_HOST", "db.internal"); ("DB_PORT", "");
                      ("DB_NAME", "shop"); ("DB_USER", "reader")]) 0%nat
  = (inl (Exception "Missing required environment variables: DB_PORT, DB_PASSWORD"),
     0%nat).
Proof.
  destruct (@missing_credentials_are_listed
              (Database.office [("DB_HOST", "db.internal"); ("DB_PORT", "");
                                ("DB_NAME", "shop"); ("DB_USER", "reader")])
              0%nat 0%nat
              (Exception "Missing required environment variables: DB_PORT, DB_PASSWORD")
              eq_refl) as (_ & _ & He).
  reflexivity.
Defined.

(** X22.  [get_db_connection] leaves no connection open: if the driver
    opens one connection per successful [connect] and [close] releases
    one, then around any body that opens and closes none itself, the
    number of open connections is the same afterwards as before, whether
    the body returned or raised. *)
Theorem connection_never_leaks `{B : Database.Backend} {A : Type}
        (open_count : Database.World -> nat)
        (body : Database.Conn -> M Database.World A) :
  (forall arguments w conn w',
      Database.connect arguments w = (inr conn, w') ->
      open_count w' = S (open_count w)) ->
  (forall arguments w e w',
      Database.connect arguments w = (inl e, w') ->
      open_count w' = open_count w) ->
  (forall conn w r w',
      Database.close conn w = (r, w') -> open_count w' = pred (open_count w)) ->
  (forall conn w r w',
      body conn w = (r, w') -> open_count w' = open_count w) ->
  forall w r w',
    Database.get_db_connection body w = (r, w') ->
    open_count w' = open_count w.
Proof.
  intros Hopen Hrefused Hclose Hbody w r w'.
  unfold Database.get_db_connection, bind, lift.
  destruct (Database.get_database_credentials w) as [[e | creds] w0] eqn:Hcreds;
    apply DatabaseFacts.credentials_keep_world in Hcreds; subst w0.
  { intros Hrun. inversion Hrun; subst. reflexivity. }
  destruct (Database.connect_arguments creds) as [e | arguments].
  { intros Hrun. inversion Hrun; subst. reflexivity. }
  destruct (Database.connect arguments w) as [[e | conn] w1] eqn:Hconnect.
  { intros Hrun. inversion Hrun; subst. exact (Hrefused _ _ _ _ Hconnect). }
  apply Hopen in Hconnect.
  destruct (body conn w1) as [[e | a] w2] eqn:Hrunbody;
    apply Hbody in Hrunbody;
    destruct (Database.close conn w2) as [[e' | u] w3] eqn:Hclosed;
    apply Hclose in Hclosed;
    intros Hrun; inversion Hrun; subst;
    rewrite Hclosed, Hrunbody, Hconnect; reflexivity.
Qed.

Lemma connection_never_leaks_witness :
  snd (@Database.execute_revenue_query (Database.office Database.full_env)
         JNull 4%nat) = 4%nat.
Proof.
  apply (@connection_never_leaks (Database.office Database.full_env) json
           (fun w => w)
           (fun conn =>
              bind (@Database.query_rows (Database.office Database.full_env)
                      conn Database.revenue_sql [JStr "today-30"])
                   (fun rows =>
                      lift (@Database.summarize_revenue
                              (Database.office Database.full_env) rows))))
    with (r := fst (@Database.execute_revenue_query
                      (Database.office Database.full_env) JNull 4%nat)).
  - intros arguments w conn w' H. inversion H. reflexivity.
  - intros arguments w e w' H. inversion H.
  - intros conn w r w' H. inversion H. reflexivity.
  - intros conn w r w' H. cbv in H. inversion H. reflexivity.
  - reflexivity.
Defined.

(** X23.  Whatever goes wrong inside [with get_db_connection()], be it
    missing credentials, a refused connection, a failing statement or a
    failing summary, surfaces as "Database connection failed: <cause>"; the
    only other exception that can escape is one raised by [close]
    itself. *)
Theorem only_connection_failures_escape `{B : Database.Backend} {A : Type}
        (body : Database.Conn -> M Database.World A)
        (w w' : Database.World) (e : exn) :
  Database.get_db_connection body w = (inl e, w') ->
  (exists cause,
      e = Exception ("Database connection failed: " ++ str_exn cause)) \/
  (exists conn w0, Database.close conn w0 = (inl e, w')).
Proof.
  unfold Database.get_db_connection.
  match goal with
  | |- context [match ?opening w with _ => _ end] =>
      destruct (opening w) as [[e0 | conn] w1]
  end.
  { intros H; inversion H; subst. left. exists e0. reflexivity. }
  destruct (body conn w1) as [[e0 | a] w2];
    destruct (Database.close conn w2) as [[e' | u] w3] eqn:Hclosed;
    intros H; inversion H; subst.
  - right. eauto.
  - left. exists e0. reflexivity.
  - right. eauto.
Qed.

Lemma only_connection_failures_escape_witness :
  @Database.execute_customer_query (Database.office Database.full_env)
    (JStr "2024-01-01") JNull 0%nat
  = (inl (Exception "Database connection failed: float() argument"), 0%nat).
Proof.
  destruct (@only_connection_failures_escape
              (Database.office Database.full_env) json
              (fun conn =>
                 bind (@Database.query_rows (Database.office Database.full_env)
                         conn
                         (fst (Database.customer_statement
                                 (JStr "2024-01-01") JNull))
                         (snd (Database.customer_statement
                                 (JStr "2024-01-01") JNull)))
                      (fun rows =>
                         lift (@Database.summarize_customers
                                 (Database.office Database.full_env) rows)))
              0%nat 0%nat
              (Exception "Database connection failed: float() argument")
              eq_refl) as [(cause & Hcause) | (conn & w0 & Hclose)].
  - reflexivity.
  - discriminate Hclose.
Defined.



(** X25.  The query functions test their arguments for truth, not for
    presence: a start date, category or minimum amount that is 0, empty or
    false is treated exactly as if it had not been given, so a minimum
    amount of 0 applies no filter and an empty start date means the default
    lookback. *)
Theorem falsy_arguments_count_as_absent `{B : Database.Backend}
        (v other : json) (w : Database.World) :
  Database.truthy v = false ->
  Database.execute_revenue_query v w
  = Database.execute_revenue_query JNull w /\
  Database.execute_product_query v other w
  = Database.execute_product_query JNull other w /\
  Database.execute_product_query other v w
  = Database.execute_product_query other JNull w /\
  Database.execute_customer_query v other w
  = Database.execute_customer_query JNull other w /\
  Database.execute_customer_query other v w
  = Database.execute_customer_query other JNull w.
Proof.
  intros Hfalsy.
  unfold Database.execute_revenue_query, Database.execute_product_query,
    Database.execute_customer_query, Database.default_start_date,
    Database.product_statement, Database.customer_statement, bind.
  rewrite Hfalsy. cbn [Database.truthy]. repeat split.
Qed.

Lemma falsy_arguments_count_as_absent_witness :
  @Database.execute_customer_query (Database.office Database.full_env)
    (JStr "2024-01-01") (JInt 0) 0%nat
  = @Database.execute_customer_query (Database.office Database.full_env)
      (JStr "2024-01-01") JNull 0%nat.
Proof.
  apply (@falsy_arguments_count_as_absent (Database.office Database.full_env)
           (JInt 0) (JStr "2024-01-01") 0%nat).
  reflexivity.
Defined.

(** X26.  Every statement the query functions send has as many "%s"
    placeholders as parameters: one for the start date, plus one exactly
    when the category or minimum-amount filter is applied. *)
Theorem placeholders_match_parameters (start_date filter_value : json) :
  Letters.occurrences "%s" Database.revenue_sql = 1 /\
  Letters.occurrences "%s"
    (fst (Database.product_statement start_date filter_value))
  = length (snd (Database.product_statement start_date filter_value)) /\
  Letters.occurrences "%s"
    (fst (Database.customer_statement start_date filter_value))
  = length (snd (Database.customer_statement start_date filter_value)) /\
  length (snd (Database.product_statement start_date filter_value))
  = (if Database.truthy filter_value then 2 else 1) /\
  length (snd (Database.customer_statement start_date filter_value))
  = (if Database.truthy filter_value then 2 else 1).
Proof.
  unfold Database.product_statement, Database.customer_statement.
  destruct (Database.truthy filter_value); repeat split; vm_compute;
    reflexivity.
Qed.


